(** * Resource handlers of the AWS provider

    A shallow embedding of two resource handlers:
    - [logs]: the CloudWatch Logs log stream (internal/service/logs/stream.go),
      written against the plugin SDK ([schema.ResourceData]);
    - [cognitoidp]: the Cognito user pool client
      (internal/service/cognitoidp/user_pool_client.go), written against the
      plugin framework (typed request / response values).

    Go values are modelled as follows.  A string is a [string] (a sequence
    of bytes), a pointer [*T] is an [option T] ([None] is nil), a slice is a
    [list], an [int64] is a [Z], the interface [error] is [option error]
    ([None] is the nil error), a function with several results returns a
    tuple, and an object mutated through a pointer is passed in and
    returned.  A run-time panic is an explicit [Panic] outcome. *)

From Stdlib Require Import String Ascii List Bool ZArith Lia DecimalString.
From Equations Require Import Equations.
Import ListNotations.
Local Open Scope string_scope.
Local Open Scope list_scope.

(** ** Go run time *)

Inductive outcome (A : Type) : Type :=
| Returned (a : A)
| Panic (msg : string).
Arguments Returned {A} a.
Arguments Panic {A} msg.

(** ** Package strings *)

Module strings.

(** The first segment of [s] before the byte [sep], and the segments after it. *)
Fixpoint cut (sep : ascii) (s : string) : string * list string :=
  match s with
  | EmptyString => (EmptyString, [])
  | String c s' =>
      let (h, t) := cut sep s' in
      if Ascii.eqb c sep then (EmptyString, h :: t) else (String c h, t)
  end.

(** strings.Split(s, sep) for a separator of one byte: the segments of [s]
    between the occurrences of [sep], one more than there are occurrences. *)
Definition Split (s : string) (sep : ascii) : list string :=
  let (h, t) := cut sep s in h :: t.

(** strings.Count(s, sep) for a separator of one byte. *)
Fixpoint Count (s : string) (sep : ascii) : nat :=
  match s with
  | EmptyString => 0
  | String c s' => (if Ascii.eqb c sep then 1 else 0) + Count s' sep
  end.

End strings.

(** ** Package regexp *)

Module regexp.

(** regexp.MustCompile(c).MatchString(s) for a pattern that is the one
    literal byte [c]: some position of [s] holds [c]. *)
Fixpoint MatchString (c : ascii) (s : string) : bool :=
  match s with
  | EmptyString => false
  | String c' s' => Ascii.eqb c' c || MatchString c s'
  end.

End regexp.

(** ** AWS SDK: pointers to scalars *)

Module aws.

Definition String (v : string) : option string := Some v.

(** aws.StringValue: the pointed-to string, the empty string for nil. *)
Definition StringValue (v : option string) : string :=
  match v with
  | Some s => s
  | None => ""
  end.

End aws.

(** ** Remote request values that errors carry *)

Module DescribeLogStreamsInput.
Record t : Type := mk {
  LogGroupName : option string;
  LogStreamNamePrefix : option string
}.
End DescribeLogStreamsInput.

Module DescribeUserPoolClientInput.
Record t : Type := mk {
  ClientId : option string;
  UserPoolId : option string
}.
End DescribeUserPoolClientInput.

(** The dynamic type of a [LastRequest interface{}] field. *)
Inductive anyRequest : Type :=
| ReqDescribeLogStreams (input : DescribeLogStreamsInput.t)
| ReqDescribeUserPoolClient (input : DescribeUserPoolClientInput.t).

(** ** Errors

    The dynamic types of the [error] values that the handlers see:
    - [awserr]: an awserr.Error of the SDK, with its code and message;
    - [NotFoundError]: resource.NotFoundError{LastError, LastRequest};
    - [EmptyResultError]: the value of tfresource.NewEmptyResultError;
    - [Errorf]: fmt.Errorf(format, a...), wrapping [w] when the format has
      a %w verb. *)
#[warnings="-register-all"]
Inductive error : Type :=
| awserr (Code Message : string)
| NotFoundError (LastError : option error) (LastRequest : anyRequest)
| EmptyResultError (LastRequest : anyRequest)
| Errorf (format : string) (a : list string) (w : option error).

(** ** Package fmt and the text of an error *)

Module fmt.

(** fmt.Sprintf for formats whose verbs are %s, %q and %w: each verb is
    replaced by the next argument, between double quotes for %q. *)
Fixpoint Sprintf (format : string) (a : list string) : string :=
  match format with
  | String "%" (String v rest) =>
      if Ascii.eqb v "s" || Ascii.eqb v "w" then
        match a with
        | x :: a' => (x ++ Sprintf rest a')%string
        | [] => Sprintf rest []
        end
      else if Ascii.eqb v "q" then
        match a with
        | x :: a' => (String "034" x ++ String "034" (Sprintf rest a'))%string
        | [] => Sprintf rest []
        end
      else String "%" (String v (Sprintf rest a))
  | String c rest => String c (Sprintf rest a)
  | EmptyString => EmptyString
  end.

End fmt.

(** err.Error() *)
Fixpoint Error (err : error) : string :=
  match err with
  | awserr c m => (c ++ ": " ++ m)%string
  | NotFoundError _ _ => "couldn't find resource"
  | EmptyResultError _ => "empty result"
  | Errorf format a (Some w) => fmt.Sprintf format (a ++ [Error w])
  | Errorf format a None => fmt.Sprintf format a
  end.

Module tfawserr.

(** The code of the first awserr.Error on the chain of wrapped errors. *)
Fixpoint code (err : error) : option string :=
  match err with
  | awserr c _ => Some c
  | NotFoundError (Some e) _ => code e
  | NotFoundError None _ => None
  | EmptyResultError _ => None
  | Errorf _ _ (Some e) => code e
  | Errorf _ _ None => None
  end.

(** tfawserr.ErrCodeEquals(err, code): [err] is, or wraps, an awserr.Error
    with that code.  It is false of the nil error. *)
Definition ErrCodeEquals (err : option error) (c : string) : bool :=
  match err with
  | None => false
  | Some e =>
      match code e with
      | Some c' => String.eqb c' c
      | None => false
      end
  end.

End tfawserr.

(** ** Package time *)

Module time.

(** A time.Duration counts nanoseconds. *)
Definition Duration : Type := Z.
Definition Second : Duration := 1000000000%Z.
Definition Minute : Duration := (60 * Second)%Z.

End time.

Module tfresource.

Definition NewEmptyResultError (input : anyRequest) : error :=
  EmptyResultError input.

(** Modelled from the spec: tfresource.NotFound is not among the sources.
    The spec calls the error of an exhausted listing a not-found error and
    has Read drop local state on remote "not found": the predicate holds of
    a NotFoundError and of an EmptyResultError, also when wrapped, and of
    nothing else. *)
Fixpoint isNotFound (err : error) : bool :=
  match err with
  | awserr _ _ => false
  | NotFoundError _ _ => true
  | EmptyResultError _ => true
  | Errorf _ _ (Some e) => isNotFound e
  | Errorf _ _ None => false
  end.

Definition NotFound (err : option error) : bool :=
  match err with
  | None => false
  | Some e => isNotFound e
  end.

Definition inspect {A : Type} (a : A) : {b : A | a = b} := exist _ a eq_refl.

(** Modelled from the spec: tfresource.RetryWhenAWSErrCodeEquals is not
    among the sources.  The spec has Update retry on one error code "with a
    bounded backoff up to two minutes", the conflict "retried transparently
    up to a timeout, then surfaced".  Time is a clock of nanoseconds that
    starts with the helper.  [f n] is call number [n] of the closure: its
    result, and the time until a next call could start.  The helper calls
    the closure; a result that is not an error with the code [c] is
    returned; after an error with the code [c] it calls again when the
    timeout has not elapsed by then, and returns that error otherwise.
    [retryLoop] also returns the number of calls made so far. *)
Equations? retryLoop {A : Type} (timeout : time.Duration)
    (f : nat -> (A + error) * positive) (c : string) (n : nat) (elapsed : Z)
    : (A + error) * nat by wf (Z.to_nat (timeout - elapsed)) lt :=
  retryLoop timeout f c n elapsed with f n := {
    | (inl output, _) => (inl output, S n);
    | (inr err, d) with inspect (tfawserr.ErrCodeEquals (Some err) c
                                 && (elapsed + Z.pos d <? timeout)%Z) := {
        | exist _ true _ => retryLoop timeout f c (S n) (elapsed + Z.pos d);
        | exist _ false _ => (inr err, S n) } }.
Proof.
  apply andb_prop in e as [_ e]. apply Z.ltb_lt in e. lia.
Qed.

Definition RetryWhenAWSErrCodeEquals {A : Type} (timeout : time.Duration)
    (f : nat -> (A + error) * positive) (c : string) : (A + error) * nat :=
  retryLoop timeout f c 0 0%Z.

End tfresource.

(** ** AWS SDK: package cloudwatchlogs *)

Module cloudwatchlogs.

Definition ErrCodeResourceNotFoundException : string := "ResourceNotFoundException".

Module CreateLogStreamInput.
Record t : Type := mk {
  LogGroupName : option string;
  LogStreamName : option string
}.
End CreateLogStreamInput.

Module DeleteLogStreamInput.
Record t : Type := mk {
  LogGroupName : option string;
  LogStreamName : option string
}.
End DeleteLogStreamInput.

(** cloudwatchlogs.LogStream; the handler reads [Arn] and [LogStreamName]
    only. *)
Module LogStream.
Record t : Type := mk {
  Arn : option string;
  CreationTime : option Z;
  LogStreamName : option string
}.
End LogStream.

(** One page of a listing.  [LogStreams] is a slice of pointers to the
    streams the service listed; each of them points to a stream. *)
Module DescribeLogStreamsOutput.
Record t : Type := mk {
  LogStreams : list LogStream.t
}.
End DescribeLogStreamsOutput.

(** What the service answers to the request for the next page: a page
    (the pointer may be nil) or an error. *)
Inductive pageResponse : Type :=
| PageOK (page : option DescribeLogStreamsOutput.t)
| PageErr (err : error).

(** The connection: what the service answers to each call.  A listing is
    the sequence of answers to the successive page requests; the page
    that has no successor is the last page. *)
Record CloudWatchLogs : Type := mkConn {
  CreateLogStream : CreateLogStreamInput.t -> option error;
  DeleteLogStream : DeleteLogStreamInput.t -> option error;
  DescribeLogStreams : DescribeLogStreamsInput.t -> list pageResponse
}.

(** The paginator of the SDK over the answers [rs]: it requests page after
    page, hands each to [fn] with the flag "last page", and stops when [fn]
    returns false, when there is no further page, or with the error of a
    failed request.  [fn] is a closure over a variable of type [S], whose
    value is threaded through. *)
Fixpoint pages {S : Type} (rs : list pageResponse)
    (fn : S -> option DescribeLogStreamsOutput.t -> bool -> S * bool)
    (s : S) : S * option error :=
  match rs with
  | [] => (s, None)
  | PageErr e :: _ => (s, Some e)
  | PageOK page :: rest =>
      let (s', continue) := fn s page (match rest with [] => true | _ => false end) in
      if continue then pages rest fn s' else (s', None)
  end.

Definition DescribeLogStreamsPages {S : Type} (conn : CloudWatchLogs)
    (input : DescribeLogStreamsInput.t)
    (fn : S -> option DescribeLogStreamsOutput.t -> bool -> S * bool)
    (s : S) : S * option error :=
  pages (DescribeLogStreams conn input) fn s.

End cloudwatchlogs.

(** ** Plugin SDK: schema.ResourceData of the log stream resource *)

Module schema.

(** The data of one log stream resource: its id, the three attributes of
    the resource's schema, and the mark "new resource" that the SDK sets
    while it creates the resource. *)
Record ResourceData : Type := mkResourceData {
  Id : string;
  arn : string;
  log_group_name : string;
  name : string;
  IsNewResource : bool
}.

Definition SetId (d : ResourceData) (v : string) : ResourceData :=
  {| Id := v; arn := arn d; log_group_name := log_group_name d;
     name := name d; IsNewResource := IsNewResource d |}.

Definition Set_arn (d : ResourceData) (v : option string) : ResourceData :=
  {| Id := Id d; arn := aws.StringValue v; log_group_name := log_group_name d;
     name := name d; IsNewResource := IsNewResource d |}.

Definition Set_name (d : ResourceData) (v : option string) : ResourceData :=
  {| Id := Id d; arn := arn d; log_group_name := log_group_name d;
     name := aws.StringValue v; IsNewResource := IsNewResource d |}.

Definition Set_log_group_name (d : ResourceData) (v : string) : ResourceData :=
  {| Id := Id d; arn := arn d; log_group_name := v;
     name := name d; IsNewResource := IsNewResource d |}.

End schema.

(** ** internal/service/logs/stream.go *)

Module logs.

Import cloudwatchlogs schema.

(** The callback that [FindLogStreamByTwoPartKey] hands to the paginator;
    [output] is the variable it captures. *)
Definition findPage (name : string) (output : option LogStream.t)
    (page : option DescribeLogStreamsOutput.t) (lastPage : bool)
    : option LogStream.t * bool :=
  match page with
  | None => (output, negb lastPage)
  | Some page =>
      match find (fun v => String.eqb (aws.StringValue (LogStream.LogStreamName v)) name)
                 (DescribeLogStreamsOutput.LogStreams page) with
      | Some v => (Some v, false)
      | None => (output, negb lastPage)
      end
  end.

Definition FindLogStreamByTwoPartKey (conn : CloudWatchLogs) (logGroupName name : string)
    : option LogStream.t * option error :=
  let input := {| DescribeLogStreamsInput.LogGroupName := aws.String logGroupName;
                  DescribeLogStreamsInput.LogStreamNamePrefix := aws.String name |} in
  let (output, err) := DescribeLogStreamsPages conn input (findPage name) None in
  if tfawserr.ErrCodeEquals err ErrCodeResourceNotFoundException then
    (None, Some (NotFoundError err (ReqDescribeLogStreams input)))
  else
    match err with
    | Some e => (None, Some e)
    | None =>
        match output with
        | None => (None, Some (tfresource.NewEmptyResultError (ReqDescribeLogStreams input)))
        | Some v => (Some v, None)
        end
    end.

(** [ls.Arn] on a nil [ls] would be a nil pointer dereference. *)
Definition resourceStreamRead (d : ResourceData) (conn : CloudWatchLogs)
    : outcome (ResourceData * option error) :=
  let (ls, err) := FindLogStreamByTwoPartKey conn (log_group_name d) (Id d) in
  if negb (IsNewResource d) && tfresource.NotFound err then
    Returned (SetId d "", None)
  else
    match err with
    | Some e =>
        Returned
          (d, Some (Errorf "reading CloudWatch Logs Log Stream (%s): %w" [Id d] (Some e)))
    | None =>
        match ls with
        | Some ls =>
            let d := Set_arn d (LogStream.Arn ls) in
            let d := Set_name d (LogStream.LogStreamName ls) in
            Returned (d, None)
        | None => Panic "invalid memory address or nil pointer dereference"
        end
    end.

Definition resourceStreamCreate (d : ResourceData) (conn : CloudWatchLogs)
    : outcome (ResourceData * option error) :=
  let name := schema.name d in
  let input := {| CreateLogStreamInput.LogGroupName := aws.String (log_group_name d);
                  CreateLogStreamInput.LogStreamName := aws.String name |} in
  match CreateLogStream conn input with
  | Some err =>
      Returned
        (d, Some (Errorf "creating CloudWatch Logs Log Stream (%s): %w" [name] (Some err)))
  | None =>
      let d := SetId d name in
      resourceStreamRead d conn
  end.

Definition resourceStreamDelete (d : ResourceData) (conn : CloudWatchLogs)
    : ResourceData * option error :=
  let err := DeleteLogStream conn
    {| DeleteLogStreamInput.LogGroupName := aws.String (log_group_name d);
       DeleteLogStreamInput.LogStreamName := aws.String (Id d) |} in
  if tfawserr.ErrCodeEquals err ErrCodeResourceNotFoundException then
    (d, None)
  else
    match err with
    | Some e =>
        (d, Some (Errorf "deleting CloudWatch Logs Log Stream (%s): %w" [Id d] (Some e)))
    | None => (d, None)
    end.

(** The result is the data behind [d] when the function returns, the
    slice it returns, and its error.  The two-element pattern is the test
    [len(parts) != 2] followed by [parts[0]] and [parts[1]]. *)
Definition resourceStreamImport (d : ResourceData)
    : ResourceData * list ResourceData * option error :=
  match strings.Split (Id d) ":" with
  | [logGroupName; logStreamName] =>
      let d := SetId d logStreamName in
      let d := Set_log_group_name d logGroupName in
      (d, [d], None)
  | _ =>
      (d, [],
       Some (Errorf "wrong format of import ID (%s), use: 'log-group-name:log-stream-name'"
                    [Id d] None))
  end.

(** The warnings and the errors of the validator of the attribute [k]. *)
Definition validStreamName (value : string) (k : string) : list string * list error :=
  let errors : list error := [] in
  let errors :=
    if regexp.MatchString ":" value then
      (errors ++ [Errorf "colons not allowed in %q:" [k] None])
    else errors in
  let errors :=
    if (String.length value <? 1)%nat || (512 <? String.length value)%nat then
      (errors ++ [Errorf "%q must be between 1 and 512 characters: %q" [k; value] None])
    else errors in
  ([], errors).

End logs.

(** ** Plugin framework: attribute values and diagnostics *)

Module diag.

Inductive Severity : Type := SeverityError | SeverityWarning.

Record Diagnostic : Type := mkDiagnostic {
  severity : Severity;
  Summary : string;
  Detail : string
}.

Definition Diagnostics : Type := list Diagnostic.

Definition NewErrorDiagnostic (summary detail : string) : Diagnostic :=
  {| severity := SeverityError; Summary := summary; Detail := detail |}.

Definition isError (d : Diagnostic) : bool :=
  match severity d with
  | SeverityError => true
  | SeverityWarning => false
  end.

Definition Equal (d d' : Diagnostic) : bool :=
  Bool.eqb (isError d) (isError d')
  && String.eqb (Summary d) (Summary d')
  && String.eqb (Detail d) (Detail d').

Definition HasError (diags : Diagnostics) : bool := existsb isError diags.

Definition Contains (diags : Diagnostics) (d : Diagnostic) : bool :=
  existsb (Equal d) diags.

(** diags.Append(in...): each diagnostic that [diags] does not contain
    yet is added at the end. *)
Fixpoint Append (diags : Diagnostics) (new : list Diagnostic) : Diagnostics :=
  match new with
  | [] => diags
  | d :: rest => Append (if Contains diags d then diags else diags ++ [d]) rest
  end.

Definition AddError (diags : Diagnostics) (summary detail : string) : Diagnostics :=
  Append diags [NewErrorDiagnostic summary detail].

End diag.

Module types.

(** A framework value is null, unknown, or known. *)
Inductive Int64 : Type := Int64Null | Int64Unknown | Int64Value (v : Z).
Inductive String : Type := StringNull | StringUnknown | StringValue (v : string).
Inductive Bool : Type := BoolNull | BoolUnknown | BoolValue (v : bool).

(** types.Set with string elements. *)
Inductive Set_ : Type := SetNull | SetUnknown | SetValue (elems : list String).

(** types.List of nested blocks; [A] is the Go struct that an element
    decodes to. *)
Inductive List (A : Type) : Type := ListNull | ListUnknown | ListValue (elems : list A).
Arguments ListNull {A}.
Arguments ListUnknown {A}.
Arguments ListValue {A} elems.

(** list.ElementsAs(ctx, &target, false) into a slice of structs: a null
    list leaves the slice nil, an unknown list is an error. *)
Definition ElementsAs {A : Type} (l : List A) : list A * diag.Diagnostics :=
  match l with
  | ListNull => ([], [])
  | ListUnknown =>
      ([], [diag.NewErrorDiagnostic "Value Conversion Error"
              "Received unknown value, however the target type cannot handle unknown values."])
  | ListValue elems => (elems, [])
  end.

End types.

(** ** AWS SDK: package arn *)

Module arn.

Record ARN : Type := mkARN {
  Partition : string;
  Service : string;
  Region : string;
  AccountID : string;
  Resource : string
}.

Fixpoint join (sep : string) (l : list string) : string :=
  match l with
  | [] => ""
  | [x] => x
  | x :: rest => (x ++ sep ++ join sep rest)%string
  end.

(** arn.Parse: the string starts with [arn:] and has six sections between
    colons, the last of which may hold colons itself. *)
Definition Parse (s : string) : option ARN :=
  match strings.Split s ":" with
  | "arn" :: partition :: service :: region :: account :: resource :: rest =>
      Some {| Partition := partition; Service := service; Region := region;
              AccountID := account; Resource := join ":" (resource :: rest) |}
  | _ => None
  end.

Definition String (a : ARN) : string :=
  ("arn:" ++ Partition a ++ ":" ++ Service a ++ ":" ++ Region a ++ ":"
          ++ AccountID a ++ ":" ++ Resource a)%string.

End arn.

Module fwtypes.

Inductive ARN : Type := ARNNull | ARNUnknown | ARNValue (v : arn.ARN).

End fwtypes.

(** ** internal/framework/flex: conversions between framework values and
    the pointers of the SDK.  A conversion called Legacy writes the zero
    value where the other writes null. *)

Module flex.

Import types.

(** Modelled from the spec: flex.Int64ToFramework is not among the
    sources; a nil pointer becomes null, any other the known value. *)
Definition Int64ToFramework (v : option Z) : Int64 :=
  match v with
  | None => Int64Null
  | Some i => Int64Value i
  end.

(** Modelled from the spec: flex.Int64ToFrameworkLegacy is not among the
    sources; a nil pointer becomes the known value 0. *)
Definition Int64ToFrameworkLegacy (v : option Z) : Int64 :=
  match v with
  | None => Int64Value 0
  | Some i => Int64Value i
  end.

(** Modelled from the spec: flex.Int64FromFramework is not among the
    sources; null and unknown become nil. *)
Definition Int64FromFramework (v : Int64) : option Z :=
  match v with
  | Int64Value i => Some i
  | _ => None
  end.

(** Modelled from the spec: flex.Int64FromFrameworkLegacy is not among the
    sources; null, unknown and 0 become nil. *)
Definition Int64FromFrameworkLegacy (v : Int64) : option Z :=
  match v with
  | Int64Value i => if (i =? 0)%Z then None else Some i
  | _ => None
  end.

(** Modelled from the spec: flex.StringToFramework is not among the
    sources; a nil pointer becomes null, any other the known value. *)
Definition StringToFramework (v : option string) : String :=
  match v with
  | None => StringNull
  | Some s => StringValue s
  end.

(** Modelled from the spec: flex.StringToFrameworkLegacy is not among the
    sources; a nil pointer becomes the known empty string. *)
Definition StringToFrameworkLegacy (v : option string) : String :=
  StringValue (aws.StringValue v).

(** Modelled from the spec: flex.StringFromFramework is not among the
    sources; null and unknown become nil. *)
Definition StringFromFramework (v : String) : option string :=
  match v with
  | StringValue s => Some s
  | _ => None
  end.

(** Modelled from the spec: flex.StringFromFrameworkLegacy is not among
    the sources; null, unknown and the empty string become nil. *)
Definition StringFromFrameworkLegacy (v : String) : option string :=
  match v with
  | StringValue s => if String.eqb s "" then None else Some s
  | _ => None
  end.

(** Modelled from the spec: flex.BoolToFramework is not among the sources;
    a nil pointer becomes null, any other the known value. *)
Definition BoolToFramework (v : option bool) : Bool :=
  match v with
  | None => BoolNull
  | Some b => BoolValue b
  end.

(** Modelled from the spec: flex.BoolFromFramework is not among the
    sources; null and unknown become nil. *)
Definition BoolFromFramework (v : Bool) : option bool :=
  match v with
  | BoolValue b => Some b
  | _ => None
  end.

(** Modelled from the spec: flex.FlattenFrameworkStringSetLegacy is not
    among the sources; the set of the pointed-to strings, the empty set
    for a nil slice. *)
Definition FlattenFrameworkStringSetLegacy (vs : list (option string)) : Set_ :=
  SetValue (map (fun v => StringValue (aws.StringValue v)) vs).

Definition isUnknown (v : String) : bool :=
  match v with
  | StringUnknown => true
  | _ => false
  end.

(** Modelled from the spec: flex.ExpandFrameworkStringSet is not among the
    sources; the elements of a known set, a nil slice for a null or
    unknown set and for a set with an unknown element. *)
Definition ExpandFrameworkStringSet (set : Set_) : list (option string) :=
  match set with
  | SetValue elems =>
      if existsb isUnknown elems then [] else map StringFromFramework elems
  | _ => []
  end.

(** Modelled from the spec: flex.ARNStringFromFramework is not among the
    sources; null and unknown become nil, an ARN its string. *)
Definition ARNStringFromFramework (v : fwtypes.ARN) : option string :=
  match v with
  | fwtypes.ARNValue a => Some (arn.String a)
  | _ => None
  end.

(** Modelled from the spec: flex.StringToFrameworkARN is not among the
    sources; a nil pointer becomes null, a string that parses the ARN, and
    any other string is reported as an error and becomes unknown. *)
Definition StringToFrameworkARN (v : option string) (diags : diag.Diagnostics)
    : fwtypes.ARN * diag.Diagnostics :=
  match v with
  | None => (fwtypes.ARNNull, diags)
  | Some s =>
      match arn.Parse s with
      | Some a => (fwtypes.ARNValue a, diags)
      | None => (fwtypes.ARNUnknown, diag.AddError diags "Parsing ARN" s)
      end
  end.

End flex.

(** ** AWS SDK: package cognitoidentityprovider *)

Module cognitoidentityprovider.

Definition ErrCodeResourceNotFoundException : string := "ResourceNotFoundException".
Definition ErrCodeConcurrentModificationException : string :=
  "ConcurrentModificationException".

Module AnalyticsConfigurationType.
Record t : Type := mk {
  ApplicationArn : option string;
  ApplicationId : option string;
  ExternalId : option string;
  RoleArn : option string;
  UserDataShared : option bool
}.
End AnalyticsConfigurationType.

Module TokenValidityUnitsType.
Record t : Type := mk {
  AccessToken : option string;
  IdToken : option string;
  RefreshToken : option string
}.
End TokenValidityUnitsType.

(** The user pool client as the service describes it. *)
Module UserPoolClientType.
Record t : Type := mk {
  AccessTokenValidity : option Z;
  AllowedOAuthFlows : list (option string);
  AllowedOAuthFlowsUserPoolClient : option bool;
  AllowedOAuthScopes : list (option string);
  AnalyticsConfiguration : option AnalyticsConfigurationType.t;
  AuthSessionValidity : option Z;
  CallbackURLs : list (option string);
  ClientId : option string;
  ClientName : option string;
  ClientSecret : option string;
  CreationDate : option Z;
  DefaultRedirectURI : option string;
  EnablePropagateAdditionalUserContextData : option bool;
  EnableTokenRevocation : option bool;
  ExplicitAuthFlows : list (option string);
  IdTokenValidity : option Z;
  LastModifiedDate : option Z;
  LogoutURLs : list (option string);
  PreventUserExistenceErrors : option string;
  ReadAttributes : list (option string);
  RefreshTokenValidity : option Z;
  SupportedIdentityProviders : list (option string);
  TokenValidityUnits : option TokenValidityUnitsType.t;
  UserPoolId : option string;
  WriteAttributes : list (option string)
}.
End UserPoolClientType.

Module CreateUserPoolClientInput.
Record t : Type := mk {
  AccessTokenValidity : option Z;
  AllowedOAuthFlows : list (option string);
  AllowedOAuthFlowsUserPoolClient : option bool;
  AllowedOAuthScopes : list (option string);
  AnalyticsConfiguration : option AnalyticsConfigurationType.t;
  AuthSessionValidity : option Z;
  CallbackURLs : list (option string);
  ClientName : option string;
  DefaultRedirectURI : option string;
  EnablePropagateAdditionalUserContextData : option bool;
  EnableTokenRevocation : option bool;
  ExplicitAuthFlows : list (option string);
  GenerateSecret : option bool;
  IdTokenValidity : option Z;
  LogoutURLs : list (option string);
  PreventUserExistenceErrors : option string;
  ReadAttributes : list (option string);
  RefreshTokenValidity : option Z;
  SupportedIdentityProviders : list (option string);
  TokenValidityUnits : option TokenValidityUnitsType.t;
  UserPoolId : option string;
  WriteAttributes : list (option string)
}.
End CreateUserPoolClientInput.

Module UpdateUserPoolClientInput.
Record t : Type := mk {
  AccessTokenValidity : option Z;
  AllowedOAuthFlows : list (option string);
  AllowedOAuthFlowsUserPoolClient : option bool;
  AllowedOAuthScopes : list (option string);
  AnalyticsConfiguration : option AnalyticsConfigurationType.t;
  AuthSessionValidity : option Z;
  CallbackURLs : list (option string);
  ClientId : option string;
  ClientName : option string;
  DefaultRedirectURI : option string;
  EnablePropagateAdditionalUserContextData : option bool;
  EnableTokenRevocation : option bool;
  ExplicitAuthFlows : list (option string);
  IdTokenValidity : option Z;
  LogoutURLs : list (option string);
  PreventUserExistenceErrors : option string;
  ReadAttributes : list (option string);
  RefreshTokenValidity : option Z;
  SupportedIdentityProviders : list (option string);
  TokenValidityUnits : option TokenValidityUnitsType.t;
  UserPoolId : option string;
  WriteAttributes : list (option string)
}.
End UpdateUserPoolClientInput.

Module DeleteUserPoolClientInput.
Record t : Type := mk {
  ClientId : option string;
  UserPoolId : option string
}.
End DeleteUserPoolClientInput.

(** The outputs of the calls that succeed; each holds the client. *)
Module CreateUserPoolClientOutput.
Record t : Type := mk { UserPoolClient : UserPoolClientType.t }.
End CreateUserPoolClientOutput.

Module UpdateUserPoolClientOutput.
Record t : Type := mk { UserPoolClient : UserPoolClientType.t }.
End UpdateUserPoolClientOutput.

Module DescribeUserPoolClientOutput.
Record t : Type := mk { UserPoolClient : option UserPoolClientType.t }.
End DescribeUserPoolClientOutput.

(** One call of the update operation: what the service answers, and the
    nanoseconds from the start of this call until a next call could start
    (the call itself and the pause that follows a failed attempt). *)
Record updateCall : Type := mkUpdateCall {
  answer : UpdateUserPoolClientOutput.t + error;
  took : positive
}.

(** The connection: what the service answers to each call, as the output
    of a call that succeeds or the error of one that fails.  The answer to
    an update depends on how many updates were called before. *)
Record CognitoIdentityProvider : Type := mkConn {
  CreateUserPoolClientWithContext :
    CreateUserPoolClientInput.t -> CreateUserPoolClientOutput.t + error;
  DescribeUserPoolClientWithContext :
    DescribeUserPoolClientInput.t -> DescribeUserPoolClientOutput.t + error;
  UpdateUserPoolClientWithContext :
    nat -> UpdateUserPoolClientInput.t -> updateCall;
  DeleteUserPoolClientWithContext :
    DeleteUserPoolClientInput.t -> option error
}.

End cognitoidentityprovider.

(** ** internal/service/cognitoidp/user_pool_client.go *)

Module cognitoidp.

Import cognitoidentityprovider.

(** The nested block [analytics_configuration]. *)
Record analyticsConfiguration : Type := mkAnalyticsConfiguration {
  ApplicationARN : fwtypes.ARN;
  ApplicationID : types.String;
  ExternalID : types.String;
  RoleARN : fwtypes.ARN;
  UserDataShared : types.Bool
}.

(** The nested block [token_validity_units]. *)
Record tokenValidityUnits : Type := mkTokenValidityUnits {
  AccessToken : types.String;
  IdToken : types.String;
  RefreshToken : types.String
}.

(** The resource as configuration, plan and state hold it. *)
Record resourceUserPoolClientData : Type := mkData {
  AccessTokenValidity : types.Int64;
  AllowedOauthFlows : types.Set_;
  AllowedOauthFlowsUserPoolClient : types.Bool;
  AllowedOauthScopes : types.Set_;
  AnalyticsConfiguration : types.List analyticsConfiguration;
  AuthSessionValidity : types.Int64;
  CallbackUrls : types.Set_;
  ClientSecret : types.String;
  DefaultRedirectUri : types.String;
  EnablePropagateAdditionalUserContextData : types.Bool;
  EnableTokenRevocation : types.Bool;
  ExplicitAuthFlows : types.Set_;
  GenerateSecret : types.Bool;
  ID : types.String;
  IdTokenValidity : types.Int64;
  LogoutUrls : types.Set_;
  Name : types.String;
  PreventUserExistenceErrors : types.String;
  ReadAttributes : types.Set_;
  RefreshTokenValidity : types.Int64;
  SupportedIdentityProviders : types.Set_;
  TokenValidityUnits : types.List tokenValidityUnits;
  UserPoolID : types.String;
  WriteAttributes : types.Set_
}.

(** The receiver [ac] is the address of a slice element, never nil. *)
Definition analyticsConfiguration_expand (ac : analyticsConfiguration)
    : option AnalyticsConfigurationType.t :=
  Some {| AnalyticsConfigurationType.ApplicationArn :=
            flex.ARNStringFromFramework (ApplicationARN ac);
          AnalyticsConfigurationType.ApplicationId :=
            flex.StringFromFramework (ApplicationID ac);
          AnalyticsConfigurationType.ExternalId :=
            flex.StringFromFramework (ExternalID ac);
          AnalyticsConfigurationType.RoleArn :=
            flex.ARNStringFromFramework (RoleARN ac);
          AnalyticsConfigurationType.UserDataShared :=
            flex.BoolFromFramework (UserDataShared ac) |}.

(** [diags] is the value behind the pointer on entry, the second result
    its value on return. *)
Definition expandAnaylticsConfiguration (list : types.List analyticsConfiguration)
    (diags : diag.Diagnostics)
    : option AnalyticsConfigurationType.t * diag.Diagnostics :=
  let (analytics, ds) := types.ElementsAs list in
  let diags := diag.Append diags ds in
  if diag.HasError diags then (None, diags)
  else
    match analytics with
    | [ac] => (analyticsConfiguration_expand ac, diags)
    | _ => (None, diags)
    end.

Definition flattenAnaylticsConfiguration (ac : option AnalyticsConfigurationType.t)
    (diags : diag.Diagnostics)
    : types.List analyticsConfiguration * diag.Diagnostics :=
  match ac with
  | None => (types.ListNull, diags)
  | Some ac =>
      let (application_arn, diags) :=
        flex.StringToFrameworkARN (AnalyticsConfigurationType.ApplicationArn ac) diags in
      let application_id :=
        flex.StringToFramework (AnalyticsConfigurationType.ApplicationId ac) in
      let external_id :=
        flex.StringToFramework (AnalyticsConfigurationType.ExternalId ac) in
      let (role_arn, diags) :=
        flex.StringToFrameworkARN (AnalyticsConfigurationType.RoleArn ac) diags in
      let user_data_shared :=
        flex.BoolToFramework (AnalyticsConfigurationType.UserDataShared ac) in
      (types.ListValue
         [ {| ApplicationARN := application_arn; ApplicationID := application_id;
              ExternalID := external_id; RoleARN := role_arn;
              UserDataShared := user_data_shared |} ],
       diags)
  end.

(** The receiver [tvu] is the address of a slice element, never nil. *)
Definition tokenValidityUnits_expand (tvu : tokenValidityUnits)
    : option TokenValidityUnitsType.t :=
  Some {| TokenValidityUnitsType.AccessToken := flex.StringFromFramework (AccessToken tvu);
          TokenValidityUnitsType.IdToken := flex.StringFromFramework (IdToken tvu);
          TokenValidityUnitsType.RefreshToken :=
            flex.StringFromFramework (RefreshToken tvu) |}.

Definition expandTokenValidityUnits (list : types.List tokenValidityUnits)
    (diags : diag.Diagnostics)
    : option TokenValidityUnitsType.t * diag.Diagnostics :=
  let (units, ds) := types.ElementsAs list in
  let diags := diag.Append diags ds in
  if diag.HasError diags then (None, diags)
  else
    match units with
    | [tvu] => (tokenValidityUnits_expand tvu, diags)
    | _ => (None, diags)
    end.

Definition isNil {A : Type} (p : option A) : bool :=
  match p with
  | None => true
  | Some _ => false
  end.

Definition flattenTokenValidityUnits (tvu : option TokenValidityUnitsType.t)
    : types.List tokenValidityUnits :=
  match tvu with
  | None => types.ListNull
  | Some tvu =>
      if isNil (TokenValidityUnitsType.AccessToken tvu)
         && isNil (TokenValidityUnitsType.IdToken tvu)
         && isNil (TokenValidityUnitsType.RefreshToken tvu)
      then types.ListNull
      else
        types.ListValue
          [ {| AccessToken :=
                 flex.StringToFramework (TokenValidityUnitsType.AccessToken tvu);
               IdToken := flex.StringToFramework (TokenValidityUnitsType.IdToken tvu);
               RefreshToken :=
                 flex.StringToFramework (TokenValidityUnitsType.RefreshToken tvu) |} ]
  end.

(** data.update(ctx, in, diags): the data behind the receiver and the
    diagnostics on return. *)
Definition update (data : resourceUserPoolClientData) (inp : UserPoolClientType.t)
    (diags : diag.Diagnostics) : resourceUserPoolClientData * diag.Diagnostics :=
  let (analytics, diags) :=
    flattenAnaylticsConfiguration (UserPoolClientType.AnalyticsConfiguration inp) diags in
  ({| AccessTokenValidity :=
        flex.Int64ToFrameworkLegacy (UserPoolClientType.AccessTokenValidity inp);
      AllowedOauthFlows :=
        flex.FlattenFrameworkStringSetLegacy (UserPoolClientType.AllowedOAuthFlows inp);
      AllowedOauthFlowsUserPoolClient :=
        flex.BoolToFramework (UserPoolClientType.AllowedOAuthFlowsUserPoolClient inp);
      AllowedOauthScopes :=
        flex.FlattenFrameworkStringSetLegacy (UserPoolClientType.AllowedOAuthScopes inp);
      AnalyticsConfiguration := analytics;
      AuthSessionValidity :=
        flex.Int64ToFramework (UserPoolClientType.AuthSessionValidity inp);
      CallbackUrls :=
        flex.FlattenFrameworkStringSetLegacy (UserPoolClientType.CallbackURLs inp);
      ClientSecret := flex.StringToFrameworkLegacy (UserPoolClientType.ClientSecret inp);
      DefaultRedirectUri :=
        flex.StringToFrameworkLegacy (UserPoolClientType.DefaultRedirectURI inp);
      EnablePropagateAdditionalUserContextData :=
        flex.BoolToFramework
          (UserPoolClientType.EnablePropagateAdditionalUserContextData inp);
      EnableTokenRevocation :=
        flex.BoolToFramework (UserPoolClientType.EnableTokenRevocation inp);
      ExplicitAuthFlows :=
        flex.FlattenFrameworkStringSetLegacy (UserPoolClientType.ExplicitAuthFlows inp);
      GenerateSecret := GenerateSecret data;
      ID := flex.StringToFramework (UserPoolClientType.ClientId inp);
      IdTokenValidity :=
        flex.Int64ToFrameworkLegacy (UserPoolClientType.IdTokenValidity inp);
      LogoutUrls := flex.FlattenFrameworkStringSetLegacy (UserPoolClientType.LogoutURLs inp);
      Name := flex.StringToFramework (UserPoolClientType.ClientName inp);
      PreventUserExistenceErrors :=
        flex.StringToFrameworkLegacy (UserPoolClientType.PreventUserExistenceErrors inp);
      ReadAttributes :=
        flex.FlattenFrameworkStringSetLegacy (UserPoolClientType.ReadAttributes inp);
      RefreshTokenValidity :=
        flex.Int64ToFramework (UserPoolClientType.RefreshTokenValidity inp);
      SupportedIdentityProviders :=
        flex.FlattenFrameworkStringSetLegacy
          (UserPoolClientType.SupportedIdentityProviders inp);
      TokenValidityUnits :=
        flattenTokenValidityUnits (UserPoolClientType.TokenValidityUnits inp);
      UserPoolID := flex.StringToFramework (UserPoolClientType.UserPoolId inp);
      WriteAttributes :=
        flex.FlattenFrameworkStringSetLegacy (UserPoolClientType.WriteAttributes inp) |},
   diags).

(** data.createInput(ctx, diags): the fields of the literal are evaluated
    in order, so the analytics block is expanded before the token validity
    units, both into the same diagnostics. *)
Definition createInput (data : resourceUserPoolClientData) (diags : diag.Diagnostics)
    : CreateUserPoolClientInput.t * diag.Diagnostics :=
  let (analytics, diags) := expandAnaylticsConfiguration (AnalyticsConfiguration data) diags in
  let (units, diags) := expandTokenValidityUnits (TokenValidityUnits data) diags in
  ({|
      CreateUserPoolClientInput.AccessTokenValidity :=
        flex.Int64FromFrameworkLegacy (AccessTokenValidity data);
      CreateUserPoolClientInput.AllowedOAuthFlows :=
        flex.ExpandFrameworkStringSet (AllowedOauthFlows data);
      CreateUserPoolClientInput.AllowedOAuthFlowsUserPoolClient :=
        flex.BoolFromFramework (AllowedOauthFlowsUserPoolClient data);
      CreateUserPoolClientInput.AllowedOAuthScopes :=
        flex.ExpandFrameworkStringSet (AllowedOauthScopes data);
      CreateUserPoolClientInput.AnalyticsConfiguration := analytics;
      CreateUserPoolClientInput.AuthSessionValidity :=
        flex.Int64FromFramework (AuthSessionValidity data);
      CreateUserPoolClientInput.CallbackURLs :=
        flex.ExpandFrameworkStringSet (CallbackUrls data);
      CreateUserPoolClientInput.ClientName := flex.StringFromFramework (Name data);
      CreateUserPoolClientInput.DefaultRedirectURI :=
        flex.StringFromFrameworkLegacy (DefaultRedirectUri data);
      CreateUserPoolClientInput.EnablePropagateAdditionalUserContextData :=
        flex.BoolFromFramework (EnablePropagateAdditionalUserContextData data);
      CreateUserPoolClientInput.EnableTokenRevocation :=
        flex.BoolFromFramework (EnableTokenRevocation data);
      CreateUserPoolClientInput.ExplicitAuthFlows :=
        flex.ExpandFrameworkStringSet (ExplicitAuthFlows data);
      CreateUserPoolClientInput.GenerateSecret :=
        flex.BoolFromFramework (GenerateSecret data);
      CreateUserPoolClientInput.IdTokenValidity :=
        flex.Int64FromFrameworkLegacy (IdTokenValidity data);
      CreateUserPoolClientInput.LogoutURLs := flex.ExpandFrameworkStringSet (LogoutUrls data);
      CreateUserPoolClientInput.PreventUserExistenceErrors :=
        flex.StringFromFrameworkLegacy (PreventUserExistenceErrors data);
      CreateUserPoolClientInput.ReadAttributes :=
        flex.ExpandFrameworkStringSet (ReadAttributes data);
      CreateUserPoolClientInput.RefreshTokenValidity :=
        flex.Int64FromFramework (RefreshTokenValidity data);
      CreateUserPoolClientInput.SupportedIdentityProviders :=
        flex.ExpandFrameworkStringSet (SupportedIdentityProviders data);
      CreateUserPoolClientInput.TokenValidityUnits := units;
      CreateUserPoolClientInput.UserPoolId := flex.StringFromFramework (UserPoolID data);
      CreateUserPoolClientInput.WriteAttributes :=
        flex.ExpandFrameworkStringSet (WriteAttributes data) |},
   diags).

Definition updateInput (data : resourceUserPoolClientData) (diags : diag.Diagnostics)
    : UpdateUserPoolClientInput.t * diag.Diagnostics :=
  let (analytics, diags) := expandAnaylticsConfiguration (AnalyticsConfiguration data) diags in
  let (units, diags) := expandTokenValidityUnits (TokenValidityUnits data) diags in
  ({|
      UpdateUserPoolClientInput.AccessTokenValidity :=
        flex.Int64FromFrameworkLegacy (AccessTokenValidity data);
      UpdateUserPoolClientInput.AllowedOAuthFlows :=
        flex.ExpandFrameworkStringSet (AllowedOauthFlows data);
      UpdateUserPoolClientInput.AllowedOAuthFlowsUserPoolClient :=
        flex.BoolFromFramework (AllowedOauthFlowsUserPoolClient data);
      UpdateUserPoolClientInput.AllowedOAuthScopes :=
        flex.ExpandFrameworkStringSet (AllowedOauthScopes data);
      UpdateUserPoolClientInput.AnalyticsConfiguration := analytics;
      UpdateUserPoolClientInput.AuthSessionValidity :=
        flex.Int64FromFramework (AuthSessionValidity data);
      UpdateUserPoolClientInput.CallbackURLs :=
        flex.ExpandFrameworkStringSet (CallbackUrls data);
      UpdateUserPoolClientInput.ClientId := flex.StringFromFramework (ID data);
      UpdateUserPoolClientInput.ClientName := flex.StringFromFramework (Name data);
      UpdateUserPoolClientInput.DefaultRedirectURI :=
        flex.StringFromFrameworkLegacy (DefaultRedirectUri data);
      UpdateUserPoolClientInput.EnablePropagateAdditionalUserContextData :=
        flex.BoolFromFramework (EnablePropagateAdditionalUserContextData data);
      UpdateUserPoolClientInput.EnableTokenRevocation :=
        flex.BoolFromFramework (EnableTokenRevocation data);
      UpdateUserPoolClientInput.ExplicitAuthFlows :=
        flex.ExpandFrameworkStringSet (ExplicitAuthFlows data);
      UpdateUserPoolClientInput.IdTokenValidity :=
        flex.Int64FromFrameworkLegacy (IdTokenValidity data);
      UpdateUserPoolClientInput.LogoutURLs := flex.ExpandFrameworkStringSet (LogoutUrls data);
      UpdateUserPoolClientInput.PreventUserExistenceErrors :=
        flex.StringFromFrameworkLegacy (PreventUserExistenceErrors data);
      UpdateUserPoolClientInput.ReadAttributes :=
        flex.ExpandFrameworkStringSet (ReadAttributes data);
      UpdateUserPoolClientInput.RefreshTokenValidity :=
        flex.Int64FromFramework (RefreshTokenValidity data);
      UpdateUserPoolClientInput.SupportedIdentityProviders :=
        flex.ExpandFrameworkStringSet (SupportedIdentityProviders data);
      UpdateUserPoolClientInput.TokenValidityUnits := units;
      UpdateUserPoolClientInput.UserPoolId := flex.StringFromFramework (UserPoolID data);
      UpdateUserPoolClientInput.WriteAttributes :=
        flex.ExpandFrameworkStringSet (WriteAttributes data) |},
   diags).

Definition deleteInput (data : resourceUserPoolClientData) : DeleteUserPoolClientInput.t :=
  {| DeleteUserPoolClientInput.ClientId := flex.StringFromFramework (ID data);
     DeleteUserPoolClientInput.UserPoolId := flex.StringFromFramework (UserPoolID data) |}.

(** *** Requests and responses of the plugin framework *)

(** A request's Config, Plan or State as [Get(ctx, &target)] reads it: the
    data it stores in the target, and the diagnostics it returns. *)
Record source : Type := mkSource {
  target : resourceUserPoolClientData;
  getDiags : diag.Diagnostics
}.

Module CreateRequest.
Record t : Type := mk { Config : source; Plan : source }.
End CreateRequest.

Module ReadRequest.
Record t : Type := mk { State : source }.
End ReadRequest.

Module UpdateRequest.
Record t : Type := mk { Config : source; Plan : source; State : source }.
End UpdateRequest.

Module DeleteRequest.
Record t : Type := mk { State : source }.
End DeleteRequest.

Module ImportStateRequest.
Record t : Type := mk { ID : string }.
End ImportStateRequest.

(** The response of an operation: the state it leaves ([None]: no
    resource) and its diagnostics.  The five response types of the
    framework have this shape. *)
Record Response : Type := mkResponse {
  State : option resourceUserPoolClientData;
  Diagnostics : diag.Diagnostics
}.

Definition appendDiagnostics (r : Response) (ds : diag.Diagnostics) : Response :=
  {| State := State r; Diagnostics := diag.Append (Diagnostics r) ds |}.

Definition setDiagnostics (r : Response) (ds : diag.Diagnostics) : Response :=
  {| State := State r; Diagnostics := ds |}.

Definition AddError (r : Response) (summary detail : string) : Response :=
  {| State := State r; Diagnostics := diag.AddError (Diagnostics r) summary detail |}.

(** response.State.Set(ctx, &data): the data conforms to the schema, so
    no diagnostic is returned. *)
Definition State_Set (r : Response) (data : resourceUserPoolClientData) : Response :=
  {| State := Some data; Diagnostics := diag.Append (Diagnostics r) [] |}.

Definition State_RemoveResource (r : Response) : Response :=
  {| State := None; Diagnostics := Diagnostics r |}.

(** The state in which every attribute is null. *)
Definition nullData : resourceUserPoolClientData :=
  {|
     AccessTokenValidity := types.Int64Null;
     AllowedOauthFlows := types.SetNull;
     AllowedOauthFlowsUserPoolClient := types.BoolNull;
     AllowedOauthScopes := types.SetNull;
     AnalyticsConfiguration := types.ListNull;
     AuthSessionValidity := types.Int64Null;
     CallbackUrls := types.SetNull;
     ClientSecret := types.StringNull;
     DefaultRedirectUri := types.StringNull;
     EnablePropagateAdditionalUserContextData := types.BoolNull;
     EnableTokenRevocation := types.BoolNull;
     ExplicitAuthFlows := types.SetNull;
     GenerateSecret := types.BoolNull;
     ID := types.StringNull;
     IdTokenValidity := types.Int64Null;
     LogoutUrls := types.SetNull;
     Name := types.StringNull;
     PreventUserExistenceErrors := types.StringNull;
     ReadAttributes := types.SetNull;
     RefreshTokenValidity := types.Int64Null;
     SupportedIdentityProviders := types.SetNull;
     TokenValidityUnits := types.ListNull;
     UserPoolID := types.StringNull;
     WriteAttributes := types.SetNull |}.

Definition stateOrNull (st : option resourceUserPoolClientData) : resourceUserPoolClientData :=
  match st with
  | Some data => data
  | None => nullData
  end.

(** response.State.SetAttribute(ctx, path.Root("id"), v) *)
Definition State_SetAttribute_id (r : Response) (v : string) : Response :=
  let data := stateOrNull (State r) in
  {| State := Some
  {|
          AccessTokenValidity := AccessTokenValidity data;
          AllowedOauthFlows := AllowedOauthFlows data;
          AllowedOauthFlowsUserPoolClient := AllowedOauthFlowsUserPoolClient data;
          AllowedOauthScopes := AllowedOauthScopes data;
          AnalyticsConfiguration := AnalyticsConfiguration data;
          AuthSessionValidity := AuthSessionValidity data;
          CallbackUrls := CallbackUrls data;
          ClientSecret := ClientSecret data;
          DefaultRedirectUri := DefaultRedirectUri data;
          EnablePropagateAdditionalUserContextData := EnablePropagateAdditionalUserContextData data;
          EnableTokenRevocation := EnableTokenRevocation data;
          ExplicitAuthFlows := ExplicitAuthFlows data;
          GenerateSecret := GenerateSecret data;
          ID := types.StringValue v;
          IdTokenValidity := IdTokenValidity data;
          LogoutUrls := LogoutUrls data;
          Name := Name data;
          PreventUserExistenceErrors := PreventUserExistenceErrors data;
          ReadAttributes := ReadAttributes data;
          RefreshTokenValidity := RefreshTokenValidity data;
          SupportedIdentityProviders := SupportedIdentityProviders data;
          TokenValidityUnits := TokenValidityUnits data;
          UserPoolID := UserPoolID data;
          WriteAttributes := WriteAttributes data |};
     Diagnostics := diag.Append (Diagnostics r) [] |}.

(** response.State.SetAttribute(ctx, path.Root("user_pool_id"), v) *)
Definition State_SetAttribute_user_pool_id (r : Response) (v : string) : Response :=
  let data := stateOrNull (State r) in
  {| State := Some
  {|
          AccessTokenValidity := AccessTokenValidity data;
          AllowedOauthFlows := AllowedOauthFlows data;
          AllowedOauthFlowsUserPoolClient := AllowedOauthFlowsUserPoolClient data;
          AllowedOauthScopes := AllowedOauthScopes data;
          AnalyticsConfiguration := AnalyticsConfiguration data;
          AuthSessionValidity := AuthSessionValidity data;
          CallbackUrls := CallbackUrls data;
          ClientSecret := ClientSecret data;
          DefaultRedirectUri := DefaultRedirectUri data;
          EnablePropagateAdditionalUserContextData := EnablePropagateAdditionalUserContextData data;
          EnableTokenRevocation := EnableTokenRevocation data;
          ExplicitAuthFlows := ExplicitAuthFlows data;
          GenerateSecret := GenerateSecret data;
          ID := ID data;
          IdTokenValidity := IdTokenValidity data;
          LogoutUrls := LogoutUrls data;
          Name := Name data;
          PreventUserExistenceErrors := PreventUserExistenceErrors data;
          ReadAttributes := ReadAttributes data;
          RefreshTokenValidity := RefreshTokenValidity data;
          SupportedIdentityProviders := SupportedIdentityProviders data;
          TokenValidityUnits := TokenValidityUnits data;
          UserPoolID := types.StringValue v;
          WriteAttributes := WriteAttributes data |};
     Diagnostics := diag.Append (Diagnostics r) [] |}.

Definition ValueString (v : types.String) : string :=
  match v with
  | types.StringValue s => s
  | _ => ""
  end.

(** Modelled from the spec: create.DiagErrorFramework is not among the
    sources; an error diagnostic that names the action, the resource and
    its id, with the text of the error as detail. *)
Definition DiagErrorFramework (action resource id : string) (err : error)
    : diag.Diagnostic :=
  diag.NewErrorDiagnostic
    (fmt.Sprintf "%s Cognito IDP %s (%s)" [action; resource; id]) (Error err).

Definition ResNameUserPoolClient : string := "User Pool Client".

(** Modelled from the spec: FindCognitoUserPoolClientByID is not among
    the sources.  The spec has Read fetch the client by key and treat the
    remote "not found" as absence: the client is described by its two
    ids; the error code ResourceNotFoundException becomes a
    NotFoundError, an output without a client an empty result error. *)
Definition FindCognitoUserPoolClientByID (conn : CognitoIdentityProvider)
    (userPoolId clientId : string) : UserPoolClientType.t + error :=
  let input := {| DescribeUserPoolClientInput.ClientId := aws.String clientId;
                  DescribeUserPoolClientInput.UserPoolId := aws.String userPoolId |} in
  match DescribeUserPoolClientWithContext conn input with
  | inr err =>
      if tfawserr.ErrCodeEquals (Some err) ErrCodeResourceNotFoundException then
        inr (NotFoundError (Some err) (ReqDescribeUserPoolClient input))
      else inr err
  | inl output =>
      match DescribeUserPoolClientOutput.UserPoolClient output with
      | None => inr (tfresource.NewEmptyResultError (ReqDescribeUserPoolClient input))
      | Some poolClient => inl poolClient
      end
  end.

(** *** The operations of the resource *)

Definition Create (conn : CognitoIdentityProvider) (request : CreateRequest.t)
    (response : Response) : Response :=
  let config := target (CreateRequest.Config request) in
  let response := appendDiagnostics response (getDiags (CreateRequest.Config request)) in
  if diag.HasError (Diagnostics response) then response
  else
    let plan := target (CreateRequest.Plan request) in
    let response := appendDiagnostics response (getDiags (CreateRequest.Plan request)) in
    if diag.HasError (Diagnostics response) then response
    else
      let (params, diags) := createInput plan (Diagnostics response) in
      let response := setDiagnostics response diags in
      if diag.HasError (Diagnostics response) then response
      else
        match CreateUserPoolClientWithContext conn params with
        | inr err =>
            AddError response
              (fmt.Sprintf "creating Cognito User Pool Client (%s)" [ValueString (Name plan)])
              (Error err)
        | inl resp =>
            let poolClient := CreateUserPoolClientOutput.UserPoolClient resp in
            let (config, diags) := update config poolClient (Diagnostics response) in
            let response := setDiagnostics response diags in
            if diag.HasError (Diagnostics response) then response
            else State_Set response config
        end.

Definition Read (conn : CognitoIdentityProvider) (request : ReadRequest.t)
    (response : Response) : Response :=
  let state := target (ReadRequest.State request) in
  let response := appendDiagnostics response (getDiags (ReadRequest.State request)) in
  if diag.HasError (Diagnostics response) then response
  else
    match FindCognitoUserPoolClientByID conn (ValueString (UserPoolID state))
                                        (ValueString (ID state)) with
    | inr err =>
        if tfresource.NotFound (Some err) then State_RemoveResource response
        else
          appendDiagnostics response
            [DiagErrorFramework "reading" ResNameUserPoolClient (ValueString (ID state)) err]
    | inl poolClient =>
        let (state, diags) := update state poolClient (Diagnostics response) in
        let response := setDiagnostics response diags in
        if diag.HasError (Diagnostics response) then response
        else State_Set response state
    end.

(** The second result counts the calls of the remote update. *)
Definition Update (conn : CognitoIdentityProvider) (request : UpdateRequest.t)
    (response : Response) : Response * nat :=
  let config := target (UpdateRequest.Config request) in
  let response := appendDiagnostics response (getDiags (UpdateRequest.Config request)) in
  if diag.HasError (Diagnostics response) then (response, 0)
  else
    let plan := target (UpdateRequest.Plan request) in
    let response := appendDiagnostics response (getDiags (UpdateRequest.Plan request)) in
    if diag.HasError (Diagnostics response) then (response, 0)
    else
      let (params, diags) := updateInput plan (Diagnostics response) in
      let response := setDiagnostics response diags in
      if diag.HasError (Diagnostics response) then (response, 0)
      else
        let (result, calls) :=
          tfresource.RetryWhenAWSErrCodeEquals (2 * time.Minute)%Z
            (fun n =>
               let call := UpdateUserPoolClientWithContext conn n params in
               (answer call, took call))
            ErrCodeConcurrentModificationException in
        match result with
        | inr err =>
            (AddError response
               (fmt.Sprintf "updating Cognito User Pool Client (%s)" [ValueString (ID plan)])
               (Error err),
             calls)
        | inl output =>
            let poolClient := UpdateUserPoolClientOutput.UserPoolClient output in
            let (config, diags) := update config poolClient (Diagnostics response) in
            let response := setDiagnostics response diags in
            if diag.HasError (Diagnostics response) then (response, calls)
            else (State_Set response config, calls)
        end.

Definition Delete (conn : CognitoIdentityProvider) (request : DeleteRequest.t)
    (response : Response) : Response :=
  let state := target (DeleteRequest.State request) in
  let response := appendDiagnostics response (getDiags (DeleteRequest.State request)) in
  if diag.HasError (Diagnostics response) then response
  else
    let params := deleteInput state in
    let err := DeleteUserPoolClientWithContext conn params in
    if tfawserr.ErrCodeEquals err ErrCodeResourceNotFoundException then response
    else
      match err with
      | Some e =>
          AddError response
            (fmt.Sprintf "deleting Cognito User Pool Client (%s)" [ValueString (ID state)])
            (Error e)
      | None => response
      end.

(** [parts[i]] panics when [i] is not below the length of [parts]. *)
Definition index (parts : list string) (i : nat) : outcome string :=
  match nth_error parts i with
  | Some v => Returned v
  | None =>
      Panic (fmt.Sprintf "runtime error: index out of range [%s] with length %s"
               [NilEmpty.string_of_uint (Nat.to_uint i);
                NilEmpty.string_of_uint (Nat.to_uint (length parts))])
  end.

Definition ImportState (request : ImportStateRequest.t) (response : Response)
    : outcome Response :=
  let parts := strings.Split (ImportStateRequest.ID request) "/" in
  let response :=
    if negb (length parts =? 2)%nat then
      AddError response "Resource Import Invalid ID"
        (fmt.Sprintf "wrong format of import ID (%s), use: 'user-pool-id/client-id'"
                     [ImportStateRequest.ID request])
    else response in
  match index parts 0 with
  | Panic msg => Panic msg
  | Returned userPoolId =>
      match index parts 1 with
      | Panic msg => Panic msg
      | Returned clientId =>
          let response := State_SetAttribute_id response clientId in
          let response := State_SetAttribute_user_pool_id response userPoolId in
          Returned response
      end
  end.

End cognitoidp.

(** * Vocabulary of the statements *)

Import cloudwatchlogs schema.

(** The stream [v] is named [name]; a nil name reads as the empty string. *)
Definition named (name : string) (v : LogStream.t) : bool :=
  String.eqb (aws.StringValue (LogStream.LogStreamName v)) name.

(** The answer [r] is a page that lists no stream named [name]. *)
Definition pageWithout (name : string) (r : pageResponse) : bool :=
  match r with
  | PageOK None => true
  | PageOK (Some page) =>
      forallb (fun v => negb (named name v)) (DescribeLogStreamsOutput.LogStreams page)
  | PageErr _ => false
  end.

(** The service has no stream named [name] to list: every page comes
    without it, or the listing fails, before any page with it, because the
    log group is gone. *)
Fixpoint streamAbsent (name : string) (rs : list pageResponse) : bool :=
  match rs with
  | [] => true
  | PageErr e :: _ => tfawserr.ErrCodeEquals (Some e) ErrCodeResourceNotFoundException
  | r :: rest => pageWithout name r && streamAbsent name rest
  end.

(** The request that [FindLogStreamByTwoPartKey] sends. *)
Definition listing (logGroupName name : string) : DescribeLogStreamsInput.t :=
  {| DescribeLogStreamsInput.LogGroupName := aws.String logGroupName;
     DescribeLogStreamsInput.LogStreamNamePrefix := aws.String name |}.

(** ** Sample values *)

Definition sampleStream (name arn : string) : LogStream.t :=
  {| LogStream.Arn := Some arn; LogStream.CreationTime := None;
     LogStream.LogStreamName := Some name |}.

Definition samplePage (l : list LogStream.t) : pageResponse :=
  PageOK (Some {| DescribeLogStreamsOutput.LogStreams := l |}).

(** A service that answers every listing with [rs], and every deletion
    and creation with [err]. *)
Definition sampleLogs (rs : list pageResponse) (err : option error) : CloudWatchLogs :=
  {| CreateLogStream := fun _ => err;
     DeleteLogStream := fun _ => err;
     DescribeLogStreams := fun _ => rs |}.

Definition throttled : error := awserr "ThrottlingException" "Rate exceeded".

Definition gone : error :=
  awserr "ResourceNotFoundException" "The specified resource does not exist".

(** Three pages, the second nil, and a fourth request that would fail. *)
Definition sampleListing : list pageResponse :=
  [ samplePage [sampleStream "app-1" "arn:1"; sampleStream "app-2" "arn:2"];
    PageOK None;
    samplePage [sampleStream "app-3" "arn:3"; sampleStream "app" "arn:4";
                sampleStream "app" "arn:5"];
    PageErr throttled ].

Definition sampleData (id group : string) (isNew : bool) : ResourceData :=
  {| Id := id; arn := ""; log_group_name := group; name := id; IsNewResource := isNew |}.

(** ** The user pool client *)

Module UPC := cognitoidentityprovider.UserPoolClientType.

(** Each of the 23 attributes that the service describes holds, in [data],
    the value of its field of [inp]. *)
Definition mirrors (data : cognitoidp.resourceUserPoolClientData) (inp : UPC.t) : Prop :=
  cognitoidp.AccessTokenValidity data = flex.Int64ToFrameworkLegacy (UPC.AccessTokenValidity inp) /\
  cognitoidp.AllowedOauthFlows data = flex.FlattenFrameworkStringSetLegacy (UPC.AllowedOAuthFlows inp) /\
  cognitoidp.AllowedOauthFlowsUserPoolClient data = flex.BoolToFramework (UPC.AllowedOAuthFlowsUserPoolClient inp) /\
  cognitoidp.AllowedOauthScopes data = flex.FlattenFrameworkStringSetLegacy (UPC.AllowedOAuthScopes inp) /\
  cognitoidp.AnalyticsConfiguration data
  = fst (cognitoidp.flattenAnaylticsConfiguration (UPC.AnalyticsConfiguration inp) []) /\
  cognitoidp.AuthSessionValidity data = flex.Int64ToFramework (UPC.AuthSessionValidity inp) /\
  cognitoidp.CallbackUrls data = flex.FlattenFrameworkStringSetLegacy (UPC.CallbackURLs inp) /\
  cognitoidp.ClientSecret data = flex.StringToFrameworkLegacy (UPC.ClientSecret inp) /\
  cognitoidp.DefaultRedirectUri data = flex.StringToFrameworkLegacy (UPC.DefaultRedirectURI inp) /\
  cognitoidp.EnablePropagateAdditionalUserContextData data = flex.BoolToFramework (UPC.EnablePropagateAdditionalUserContextData inp) /\
  cognitoidp.EnableTokenRevocation data = flex.BoolToFramework (UPC.EnableTokenRevocation inp) /\
  cognitoidp.ExplicitAuthFlows data = flex.FlattenFrameworkStringSetLegacy (UPC.ExplicitAuthFlows inp) /\
  cognitoidp.ID data = flex.StringToFramework (UPC.ClientId inp) /\
  cognitoidp.IdTokenValidity data = flex.Int64ToFrameworkLegacy (UPC.IdTokenValidity inp) /\
  cognitoidp.LogoutUrls data = flex.FlattenFrameworkStringSetLegacy (UPC.LogoutURLs inp) /\
  cognitoidp.Name data = flex.StringToFramework (UPC.ClientName inp) /\
  cognitoidp.PreventUserExistenceErrors data = flex.StringToFrameworkLegacy (UPC.PreventUserExistenceErrors inp) /\
  cognitoidp.ReadAttributes data = flex.FlattenFrameworkStringSetLegacy (UPC.ReadAttributes inp) /\
  cognitoidp.RefreshTokenValidity data = flex.Int64ToFramework (UPC.RefreshTokenValidity inp) /\
  cognitoidp.SupportedIdentityProviders data = flex.FlattenFrameworkStringSetLegacy (UPC.SupportedIdentityProviders inp) /\
  cognitoidp.TokenValidityUnits data = cognitoidp.flattenTokenValidityUnits (UPC.TokenValidityUnits inp) /\
  cognitoidp.UserPoolID data = flex.StringToFramework (UPC.UserPoolId inp) /\
  cognitoidp.WriteAttributes data = flex.FlattenFrameworkStringSetLegacy (UPC.WriteAttributes inp).


(** The nanoseconds on the clock when call number [n] of [f] could start. *)
Fixpoint elapsed {A : Type} (f : nat -> (A + error) * positive) (n : nat) : Z :=
  match n with
  | 0 => 0%Z
  | S k => (elapsed f k + Z.pos (snd (f k)))%Z
  end.

(** The service has no client with these ids: describing it fails with
    the code ResourceNotFoundException, or yields no client. *)
Definition clientGone (conn : cognitoidentityprovider.CognitoIdentityProvider)
    (userPoolId clientId : string) : bool :=
  match cognitoidentityprovider.DescribeUserPoolClientWithContext conn
          {| DescribeUserPoolClientInput.ClientId := aws.String clientId;
             DescribeUserPoolClientInput.UserPoolId := aws.String userPoolId |} with
  | inr err =>
      tfawserr.ErrCodeEquals (Some err)
        cognitoidentityprovider.ErrCodeResourceNotFoundException
  | inl output =>
      cognitoidp.isNil (cognitoidentityprovider.DescribeUserPoolClientOutput.UserPoolClient output)
  end.

(** The diagnostics of Create and Update after the configuration and the
    plan were read. *)
Definition afterGet (response : cognitoidp.Response) (config plan : cognitoidp.source)
    : diag.Diagnostics :=
  diag.Append (diag.Append (cognitoidp.Diagnostics response) (cognitoidp.getDiags config))
              (cognitoidp.getDiags plan).

(** ** Sample values of the user pool client *)

(** A configuration that asks for a secret. *)
Definition sampleConfig : cognitoidp.resourceUserPoolClientData :=
  {|
     cognitoidp.AccessTokenValidity := cognitoidp.AccessTokenValidity cognitoidp.nullData;
     cognitoidp.AllowedOauthFlows := cognitoidp.AllowedOauthFlows cognitoidp.nullData;
     cognitoidp.AllowedOauthFlowsUserPoolClient := cognitoidp.AllowedOauthFlowsUserPoolClient cognitoidp.nullData;
     cognitoidp.AllowedOauthScopes := cognitoidp.AllowedOauthScopes cognitoidp.nullData;
     cognitoidp.AnalyticsConfiguration := cognitoidp.AnalyticsConfiguration cognitoidp.nullData;
     cognitoidp.AuthSessionValidity := cognitoidp.AuthSessionValidity cognitoidp.nullData;
     cognitoidp.CallbackUrls := cognitoidp.CallbackUrls cognitoidp.nullData;
     cognitoidp.ClientSecret := cognitoidp.ClientSecret cognitoidp.nullData;
     cognitoidp.DefaultRedirectUri := cognitoidp.DefaultRedirectUri cognitoidp.nullData;
     cognitoidp.EnablePropagateAdditionalUserContextData := cognitoidp.EnablePropagateAdditionalUserContextData cognitoidp.nullData;
     cognitoidp.EnableTokenRevocation := cognitoidp.EnableTokenRevocation cognitoidp.nullData;
     cognitoidp.ExplicitAuthFlows := cognitoidp.ExplicitAuthFlows cognitoidp.nullData;
     cognitoidp.GenerateSecret := types.BoolValue true;
     cognitoidp.ID := types.StringValue "client-1";
     cognitoidp.IdTokenValidity := cognitoidp.IdTokenValidity cognitoidp.nullData;
     cognitoidp.LogoutUrls := cognitoidp.LogoutUrls cognitoidp.nullData;
     cognitoidp.Name := types.StringValue "app";
     cognitoidp.PreventUserExistenceErrors := cognitoidp.PreventUserExistenceErrors cognitoidp.nullData;
     cognitoidp.ReadAttributes := cognitoidp.ReadAttributes cognitoidp.nullData;
     cognitoidp.RefreshTokenValidity := cognitoidp.RefreshTokenValidity cognitoidp.nullData;
     cognitoidp.SupportedIdentityProviders := cognitoidp.SupportedIdentityProviders cognitoidp.nullData;
     cognitoidp.TokenValidityUnits := types.ListValue
       [ {| cognitoidp.AccessToken := types.StringValue "hours";
            cognitoidp.IdToken := types.StringValue "hours";
            cognitoidp.RefreshToken := types.StringValue "days" |} ];
     cognitoidp.UserPoolID := types.StringValue "us-east-1_pool";
     cognitoidp.WriteAttributes := cognitoidp.WriteAttributes cognitoidp.nullData |}.

(** A client as the service describes it. *)
Definition sampleClient : UPC.t :=
  {|
     UPC.AccessTokenValidity := Some 1%Z;
     UPC.AllowedOAuthFlows := [];
     UPC.AllowedOAuthFlowsUserPoolClient := None;
     UPC.AllowedOAuthScopes := [];
     UPC.AnalyticsConfiguration := None;
     UPC.AuthSessionValidity := None;
     UPC.CallbackURLs := [];
     UPC.ClientId := Some "client-1";
     UPC.ClientName := Some "app";
     UPC.ClientSecret := None;
     UPC.CreationDate := None;
     UPC.DefaultRedirectURI := None;
     UPC.EnablePropagateAdditionalUserContextData := None;
     UPC.EnableTokenRevocation := None;
     UPC.ExplicitAuthFlows := [Some "ALLOW_REFRESH_TOKEN_AUTH"];
     UPC.IdTokenValidity := None;
     UPC.LastModifiedDate := None;
     UPC.LogoutURLs := [];
     UPC.PreventUserExistenceErrors := None;
     UPC.ReadAttributes := [];
     UPC.RefreshTokenValidity := Some 30%Z;
     UPC.SupportedIdentityProviders := [];
     UPC.TokenValidityUnits := Some {| cognitoidentityprovider.TokenValidityUnitsType.AccessToken := Some "hours";
              cognitoidentityprovider.TokenValidityUnitsType.IdToken := Some "hours";
              cognitoidentityprovider.TokenValidityUnitsType.RefreshToken := Some "days" |};
     UPC.UserPoolId := Some "us-east-1_pool";
     UPC.WriteAttributes := [] |}.

Definition conflicting : error :=
  awserr "ConcurrentModificationException" "Please try again".

Definition sampleWarning : diag.Diagnostic :=
  {| diag.severity := diag.SeverityWarning; diag.Summary := "Deprecated";
     diag.Detail := "An attribute is deprecated" |}.

(** A service that creates [sampleClient], has no client to describe or
    to delete any more, and answers the first two updates with a conflict,
    each a second after the one before. *)
Definition sampleCognito : cognitoidentityprovider.CognitoIdentityProvider :=
  {| cognitoidentityprovider.CreateUserPoolClientWithContext := fun _ =>
       inl {| cognitoidentityprovider.CreateUserPoolClientOutput.UserPoolClient :=
                sampleClient |};
     cognitoidentityprovider.DescribeUserPoolClientWithContext := fun _ => inr gone;
     cognitoidentityprovider.UpdateUserPoolClientWithContext := fun n _ =>
       {| cognitoidentityprovider.answer :=
            if (n <? 2)%nat then inr conflicting
            else inl {| cognitoidentityprovider.UpdateUserPoolClientOutput.UserPoolClient :=
                          sampleClient |};
          cognitoidentityprovider.took := 1000000000%positive |};
     cognitoidentityprovider.DeleteUserPoolClientWithContext := fun _ => Some gone |}.

Definition sampleSource (data : cognitoidp.resourceUserPoolClientData) : cognitoidp.source :=
  {| cognitoidp.target := data; cognitoidp.getDiags := [sampleWarning] |}.

Definition emptyResponse : cognitoidp.Response :=
  {| cognitoidp.State := None; cognitoidp.Diagnostics := [] |}.

(** ** Vocabulary of the further properties *)

(** The pointer [v] is nil or points to a string that is an ARN. *)
Definition parses (v : option string) : bool :=
  match v with
  | None => true
  | Some s => match arn.Parse s with Some _ => true | None => false end
  end.

(** One of the two nested blocks of [data] is unknown. *)
Definition unknownBlock (data : cognitoidp.resourceUserPoolClientData) : bool :=
  match cognitoidp.AnalyticsConfiguration data with
  | types.ListUnknown => true
  | _ => false
  end
  || match cognitoidp.TokenValidityUnits data with
     | types.ListUnknown => true
     | _ => false
     end.

(** The fields that the inputs of the remote create and of the remote
    update have in common are the same in [c] and [u]. *)
Definition sameSettings (c : cognitoidentityprovider.CreateUserPoolClientInput.t)
    (u : cognitoidentityprovider.UpdateUserPoolClientInput.t) : Prop :=
  cognitoidentityprovider.CreateUserPoolClientInput.AccessTokenValidity c
  = cognitoidentityprovider.UpdateUserPoolClientInput.AccessTokenValidity u /\
  cognitoidentityprovider.CreateUserPoolClientInput.AllowedOAuthFlows c
  = cognitoidentityprovider.UpdateUserPoolClientInput.AllowedOAuthFlows u /\
  cognitoidentityprovider.CreateUserPoolClientInput.AllowedOAuthFlowsUserPoolClient c
  = cognitoidentityprovider.UpdateUserPoolClientInput.AllowedOAuthFlowsUserPoolClient u /\
  cognitoidentityprovider.CreateUserPoolClientInput.AllowedOAuthScopes c
  = cognitoidentityprovider.UpdateUserPoolClientInput.AllowedOAuthScopes u /\
  cognitoidentityprovider.CreateUserPoolClientInput.AnalyticsConfiguration c
  = cognitoidentityprovider.UpdateUserPoolClientInput.AnalyticsConfiguration u /\
  cognitoidentityprovider.CreateUserPoolClientInput.AuthSessionValidity c
  = cognitoidentityprovider.UpdateUserPoolClientInput.AuthSessionValidity u /\
  cognitoidentityprovider.CreateUserPoolClientInput.CallbackURLs c
  = cognitoidentityprovider.UpdateUserPoolClientInput.CallbackURLs u /\
  cognitoidentityprovider.CreateUserPoolClientInput.ClientName c
  = cognitoidentityprovider.UpdateUserPoolClientInput.ClientName u /\
  cognitoidentityprovider.CreateUserPoolClientInput.DefaultRedirectURI c
  = cognitoidentityprovider.UpdateUserPoolClientInput.DefaultRedirectURI u /\
  cognitoidentityprovider.CreateUserPoolClientInput.EnablePropagateAdditionalUserContextData c
  = cognitoidentityprovider.UpdateUserPoolClientInput.EnablePropagateAdditionalUserContextData u /\
  cognitoidentityprovider.CreateUserPoolClientInput.EnableTokenRevocation c
  = cognitoidentityprovider.UpdateUserPoolClientInput.EnableTokenRevocation u /\
  cognitoidentityprovider.CreateUserPoolClientInput.ExplicitAuthFlows c
  = cognitoidentityprovider.UpdateUserPoolClientInput.ExplicitAuthFlows u /\
  cognitoidentityprovider.CreateUserPoolClientInput.IdTokenValidity c
  = cognitoidentityprovider.UpdateUserPoolClientInput.IdTokenValidity u /\
  cognitoidentityprovider.CreateUserPoolClientInput.LogoutURLs c
  = cognitoidentityprovider.UpdateUserPoolClientInput.LogoutURLs u /\
  cognitoidentityprovider.CreateUserPoolClientInput.PreventUserExistenceErrors c
  = cognitoidentityprovider.UpdateUserPoolClientInput.PreventUserExistenceErrors u /\
  cognitoidentityprovider.CreateUserPoolClientInput.ReadAttributes c
  = cognitoidentityprovider.UpdateUserPoolClientInput.ReadAttributes u /\
  cognitoidentityprovider.CreateUserPoolClientInput.RefreshTokenValidity c
  = cognitoidentityprovider.UpdateUserPoolClientInput.RefreshTokenValidity u /\
  cognitoidentityprovider.CreateUserPoolClientInput.SupportedIdentityProviders c
  = cognitoidentityprovider.UpdateUserPoolClientInput.SupportedIdentityProviders u /\
  cognitoidentityprovider.CreateUserPoolClientInput.TokenValidityUnits c
  = cognitoidentityprovider.UpdateUserPoolClientInput.TokenValidityUnits u /\
  cognitoidentityprovider.CreateUserPoolClientInput.UserPoolId c
  = cognitoidentityprovider.UpdateUserPoolClientInput.UserPoolId u /\
  cognitoidentityprovider.CreateUserPoolClientInput.WriteAttributes c
  = cognitoidentityprovider.UpdateUserPoolClientInput.WriteAttributes u.

(** A service that answers every call with the error [err]. *)
Definition failingCognito (err : error) : cognitoidentityprovider.CognitoIdentityProvider :=
  {| cognitoidentityprovider.CreateUserPoolClientWithContext := fun _ => inr err;
     cognitoidentityprovider.DescribeUserPoolClientWithContext := fun _ => inr err;
     cognitoidentityprovider.UpdateUserPoolClientWithContext := fun _ _ =>
       {| cognitoidentityprovider.answer := inr err;
          cognitoidentityprovider.took := 1000000000%positive |};
     cognitoidentityprovider.DeleteUserPoolClientWithContext := fun _ => Some err |}.

(** An analytics block as the service describes it. *)
Definition sampleAnalytics : cognitoidentityprovider.AnalyticsConfigurationType.t :=
  {| cognitoidentityprovider.AnalyticsConfigurationType.ApplicationArn :=
       Some "arn:aws:mobiletargeting:us-east-1:123456789012:apps/abc";
     cognitoidentityprovider.AnalyticsConfigurationType.ApplicationId := None;
     cognitoidentityprovider.AnalyticsConfigurationType.ExternalId := None;
     cognitoidentityprovider.AnalyticsConfigurationType.RoleArn := None;
     cognitoidentityprovider.AnalyticsConfigurationType.UserDataShared := Some true |}.

(** * Package strings and regexp *)

Lemma Split_length (s : string) (sep : ascii) :
  length (strings.Split s sep) = S (strings.Count s sep).
Proof.
  unfold strings.Split.
  induction s as [|c s IH]; simpl; [reflexivity|].
  destruct (strings.cut sep s) as [h t].
  destruct (Ascii.eqb c sep); simpl in *; lia.
Qed.

Lemma MatchString_In (c : ascii) (s : string) :
  regexp.MatchString c s = true <-> In c (list_ascii_of_string s).
Proof.
  induction s as [|c' s IH]; simpl.
  - split; [discriminate | tauto].
  - rewrite orb_true_iff, IH, Ascii.eqb_eq. tauto.
Qed.

Lemma MatchString_not_In (c : ascii) (s : string) :
  regexp.MatchString c s = false <-> ~ In c (list_ascii_of_string s).
Proof.
  rewrite <- MatchString_In. destruct (regexp.MatchString c s); split; congruence.
Qed.

(** * The log stream: name validator *)

Lemma validStreamName_cases (value k : string) :
  snd (logs.validStreamName value k) = [] <->
  regexp.MatchString ":" value = false /\ 1 <= String.length value <= 512.
Proof.
  unfold logs.validStreamName; simpl.
  destruct (regexp.MatchString ":" value);
    destruct (Nat.ltb_spec (String.length value) 1) as [L1 | L1];
    destruct (Nat.ltb_spec 512 (String.length value)) as [L2 | L2]; simpl;
    split; intros E; try discriminate; try (destruct E; (discriminate || lia));
    try reflexivity; try (split; [reflexivity | lia]).
Qed.

(** C8. The validator of the log stream name returns at least one error
    exactly when the name holds a colon or its length is not within 1 to
    512; so a name without a colon of length 1 or 512 is accepted, with
    no warning either, and the empty name and every name of length 513
    are rejected. *)
Theorem validStreamName_rejects_iff :
  (forall value k : string,
     snd (logs.validStreamName value k) <> [] <->
     In ":"%char (list_ascii_of_string value)
     \/ String.length value < 1 \/ 512 < String.length value)
  /\ (forall value k : string,
        ~ In ":"%char (list_ascii_of_string value) ->
        String.length value = 1 \/ String.length value = 512 ->
        logs.validStreamName value k = ([], []))
  /\ (forall value k : string,
        String.length value = 0 \/ String.length value = 513 ->
        snd (logs.validStreamName value k) <> []).
Proof.
  split; [|split].
  - intros value k. rewrite validStreamName_cases, <- MatchString_In.
    destruct (regexp.MatchString ":" value); split; intros H.
    + left; reflexivity.
    + intros [E _]; discriminate.
    + right.
      destruct (Nat.ltb_spec (String.length value) 1) as [L1 | L1]; [left; assumption|].
      destruct (Nat.ltb_spec 512 (String.length value)) as [L2 | L2]; [right; assumption|].
      exfalso; apply H; split; [reflexivity | lia].
    + intros [_ L]. destruct H as [H | H]; [discriminate | lia].
  - intros value k Hc Hl.
    assert (E : snd (logs.validStreamName value k) = []).
    { apply validStreamName_cases. split; [apply MatchString_not_In; exact Hc | lia]. }
    unfold logs.validStreamName in *; simpl in *. rewrite E. reflexivity.
  - intros value k Hl E. apply validStreamName_cases in E. lia.
Qed.

(** C8, at the boundaries: the names "a" and 512 times "a" are accepted,
    the empty name and 513 times "a" are rejected. *)
Lemma validStreamName_boundary_witness :
  logs.validStreamName "a" "name" = ([], [])
  /\ logs.validStreamName (string_of_list_ascii (repeat "a"%char 512)) "name" = ([], [])
  /\ snd (logs.validStreamName "" "name") <> []
  /\ snd (logs.validStreamName (string_of_list_ascii (repeat "a"%char 513)) "name") <> [].
Proof.
  destruct validStreamName_rejects_iff as [_ [accept reject]].
  split; [|split; [|split]].
  - apply accept; [|left; reflexivity].
    simpl. intros [E | []]. discriminate E.
  - apply accept; [|right; vm_compute; reflexivity].
    rewrite list_ascii_of_string_of_list_ascii.
    intros E. apply repeat_spec in E. discriminate E.
  - apply reject. left; reflexivity.
  - apply reject. right; vm_compute; reflexivity.
Defined.

(** * The log stream: scanning the pages of a listing *)

Section Scan.

Variable name : string.

Lemma findPage_without (page : option DescribeLogStreamsOutput.t)
    (output : option LogStream.t) (lastPage : bool) :
  pageWithout name (PageOK page) = true ->
  logs.findPage name output page lastPage = (output, negb lastPage).
Proof.
  intros H. destruct page as [page|]; simpl in *; [|reflexivity].
  destruct (find _ _) as [v|] eqn:F; [|reflexivity].
  apply find_some in F as [I E].
  rewrite forallb_forall in H. specialize (H v I).
  unfold named in H. rewrite E in H. discriminate H.
Qed.

Lemma findPage_first (page : DescribeLogStreamsOutput.t)
    (before after : list LogStream.t) (v : LogStream.t)
    (output : option LogStream.t) (lastPage : bool) :
  DescribeLogStreamsOutput.LogStreams page = before ++ v :: after ->
  forallb (fun v => negb (named name v)) before = true ->
  named name v = true ->
  logs.findPage name output (Some page) lastPage = (Some v, false).
Proof.
  intros E B V. simpl. rewrite E. clear E.
  induction before as [|b before IH]; simpl in *.
  - unfold named in V. rewrite V. reflexivity.
  - apply andb_prop in B as [Hb B]. unfold named in Hb.
    destruct (String.eqb _ name); [discriminate Hb|]. exact (IH B).
Qed.

(** Pages without the stream are passed over, as long as one follows. *)
Lemma pages_skip (pre rest : list pageResponse) (output : option LogStream.t) :
  forallb (pageWithout name) pre = true -> rest <> [] ->
  pages (pre ++ rest) (logs.findPage name) output = pages rest (logs.findPage name) output.
Proof.
  intros H Hrest. induction pre as [|r pre IH]; [reflexivity|].
  simpl in H. apply andb_prop in H as [Hr H].
  destruct r as [page|e]; [|discriminate Hr].
  cbn [app pages]. rewrite (findPage_without _ _ _ Hr).
  assert (L : match pre ++ rest with [] => true | _ :: _ => false end = false).
  { destruct pre; [destruct rest; [contradiction | reflexivity] | reflexivity]. }
  rewrite L. simpl negb. cbv iota. exact (IH H).
Qed.

(** When no page lists the stream the pages ends (logs.findPage name) after the last page,
    without an error and with the variable untouched. *)
Lemma pages_exhausted (rs : list pageResponse) (output : option LogStream.t) :
  forallb (pageWithout name) rs = true -> pages rs (logs.findPage name) output = (output, None).
Proof.
  induction rs as [|r rs IH]; intros H; [reflexivity|].
  simpl in H. apply andb_prop in H as [Hr H].
  destruct r as [page|e]; [|discriminate Hr].
  cbn [pages]. rewrite (findPage_without _ _ _ Hr).
  destruct rs; [reflexivity|]. simpl negb. cbv iota. exact (IH H).
Qed.

(** The pages stops (logs.findPage name) at the first page that lists the stream, whatever the
    service would answer afterwards. *)
Lemma pages_found (pre post : list pageResponse) (page : DescribeLogStreamsOutput.t)
    (before after : list LogStream.t) (v : LogStream.t) (output : option LogStream.t) :
  forallb (pageWithout name) pre = true ->
  DescribeLogStreamsOutput.LogStreams page = before ++ v :: after ->
  forallb (fun v => negb (named name v)) before = true ->
  named name v = true ->
  pages (pre ++ PageOK (Some page) :: post) (logs.findPage name) output = (Some v, None).
Proof.
  intros Hpre E B V.
  rewrite (pages_skip pre _ output Hpre) by discriminate.
  cbn [pages]. rewrite (findPage_first page before after v _ _ E B V). reflexivity.
Qed.

(** The pages stops (logs.findPage name) at the first request that fails. *)
Lemma pages_failed (pre post : list pageResponse) (e : error)
    (output : option LogStream.t) :
  forallb (pageWithout name) pre = true ->
  pages (pre ++ PageErr e :: post) (logs.findPage name) output = (output, Some e).
Proof.
  intros Hpre. rewrite (pages_skip pre _ output Hpre) by discriminate. reflexivity.
Qed.

(** A nil page that is not the last one changes nothing. *)
Lemma pages_nil_page (pre post : list pageResponse) (output : option LogStream.t) :
  post <> [] ->
  pages (pre ++ PageOK None :: post) (logs.findPage name) output = pages (pre ++ post) (logs.findPage name) output.
Proof.
  intros Hpost. revert output. induction pre as [|r pre IH]; intros output.
  - cbn [app pages logs.findPage]. destruct post; [contradiction | reflexivity].
  - destruct r as [page|e]; [|reflexivity].
    cbn [app pages].
    assert (L : forall x : pageResponse,
               match pre ++ x :: post with [] => true | _ :: _ => false end = false).
    { intros x. destruct pre; reflexivity. }
    assert (L' : match pre ++ post with [] => true | _ :: _ => false end = false).
    { destruct pre; [destruct post; [contradiction | reflexivity] | reflexivity]. }
    rewrite L, L'.
    destruct (logs.findPage name output page false) as [s' continue].
    destruct continue; [apply IH | reflexivity].
Qed.

(** The pages never (logs.findPage name) ends with an error and a stream. *)
Lemma pages_error_keeps (rs : list pageResponse) (output output' : option LogStream.t)
    (e : error) :
  pages rs (logs.findPage name) output = (output', Some e) -> output' = output.
Proof.
  revert output. induction rs as [|r rs IH]; intros output H; [discriminate H|].
  destruct r as [page|e0]; cbn [pages] in H.
  - destruct (logs.findPage name output page _) as [s' continue] eqn:F.
    destruct continue.
    + apply IH in H. subst output'.
      destruct page as [page|]; simpl in F; [|congruence].
      destruct (find _ _); congruence.
    + discriminate H.
  - congruence.
Qed.

End Scan.

(** * The log stream: FindLogStreamByTwoPartKey *)

Lemma Find_unfold (conn : CloudWatchLogs) (logGroupName name : string) :
  logs.FindLogStreamByTwoPartKey conn logGroupName name =
  let (output, err) :=
    pages (DescribeLogStreams conn (listing logGroupName name)) (logs.findPage name) None in
  if tfawserr.ErrCodeEquals err ErrCodeResourceNotFoundException then
    (None, Some (NotFoundError err (ReqDescribeLogStreams (listing logGroupName name))))
  else
    match err with
    | Some e => (None, Some e)
    | None =>
        match output with
        | None =>
            (None, Some (EmptyResultError (ReqDescribeLogStreams (listing logGroupName name))))
        | Some v => (Some v, None)
        end
    end.
Proof. reflexivity. Qed.

Lemma Find_found (conn : CloudWatchLogs) (logGroupName name : string)
    (pre post : list pageResponse) (page : DescribeLogStreamsOutput.t)
    (before after : list LogStream.t) (v : LogStream.t) :
  DescribeLogStreams conn (listing logGroupName name) = pre ++ PageOK (Some page) :: post ->
  forallb (pageWithout name) pre = true ->
  DescribeLogStreamsOutput.LogStreams page = before ++ v :: after ->
  forallb (fun v => negb (named name v)) before = true ->
  named name v = true ->
  logs.FindLogStreamByTwoPartKey conn logGroupName name = (Some v, None).
Proof.
  intros L Hpre E B V. rewrite Find_unfold, L.
  rewrite (pages_found name pre post page before after v None Hpre E B V).
  reflexivity.
Qed.

Lemma Find_exhausted (conn : CloudWatchLogs) (logGroupName name : string) :
  forallb (pageWithout name) (DescribeLogStreams conn (listing logGroupName name)) = true ->
  logs.FindLogStreamByTwoPartKey conn logGroupName name =
  (None, Some (EmptyResultError (ReqDescribeLogStreams (listing logGroupName name)))).
Proof.
  intros H. rewrite Find_unfold, (pages_exhausted name _ None H). reflexivity.
Qed.

Lemma Find_failed (conn : CloudWatchLogs) (logGroupName name : string)
    (pre post : list pageResponse) (e : error) :
  DescribeLogStreams conn (listing logGroupName name) = pre ++ PageErr e :: post ->
  forallb (pageWithout name) pre = true ->
  logs.FindLogStreamByTwoPartKey conn logGroupName name =
  if tfawserr.ErrCodeEquals (Some e) ErrCodeResourceNotFoundException then
    (None, Some (NotFoundError (Some e) (ReqDescribeLogStreams (listing logGroupName name))))
  else (None, Some e).
Proof.
  intros L Hpre. rewrite Find_unfold, L, (pages_failed name pre post e None Hpre).
  reflexivity.
Qed.

(** C2. FindLogStreamByTwoPartKey returns the first stream of the listing
    whose name equals the requested one and stops there: pages that the
    service would answer after that one, failures included, play no part.
    When the last page is reached without a match it returns an empty
    result error, and when a page request fails with the code
    ResourceNotFoundException it returns a NotFoundError that holds that
    error. *)
Theorem FindLogStreamByTwoPartKey_first_match :
  forall (conn : CloudWatchLogs) (logGroupName name : string),
    (forall (pre post : list pageResponse) (page : DescribeLogStreamsOutput.t)
            (before after : list LogStream.t) (v : LogStream.t),
        DescribeLogStreams conn (listing logGroupName name)
          = pre ++ PageOK (Some page) :: post ->
        forallb (pageWithout name) pre = true ->
        DescribeLogStreamsOutput.LogStreams page = before ++ v :: after ->
        forallb (fun v => negb (named name v)) before = true ->
        named name v = true ->
        logs.FindLogStreamByTwoPartKey conn logGroupName name = (Some v, None)
        /\ aws.StringValue (LogStream.LogStreamName v) = name)
    /\ (forallb (pageWithout name) (DescribeLogStreams conn (listing logGroupName name))
          = true ->
        logs.FindLogStreamByTwoPartKey conn logGroupName name =
        (None, Some (tfresource.NewEmptyResultError
                       (ReqDescribeLogStreams (listing logGroupName name))))
        /\ tfresource.NotFound
             (snd (logs.FindLogStreamByTwoPartKey conn logGroupName name)) = true)
    /\ (forall (pre post : list pageResponse) (e : error),
          DescribeLogStreams conn (listing logGroupName name) = pre ++ PageErr e :: post ->
          forallb (pageWithout name) pre = true ->
          tfawserr.ErrCodeEquals (Some e) ErrCodeResourceNotFoundException = true ->
          logs.FindLogStreamByTwoPartKey conn logGroupName name =
          (None, Some (NotFoundError (Some e)
                         (ReqDescribeLogStreams (listing logGroupName name))))).
Proof.
  intros conn logGroupName name. split; [|split].
  - intros pre post page before after v L Hpre E B V. split.
    + exact (Find_found conn logGroupName name pre post page before after v L Hpre E B V).
    + apply String.eqb_eq. exact V.
  - intros H. rewrite (Find_exhausted conn logGroupName name H). split; reflexivity.
  - intros pre post e L Hpre C.
    rewrite (Find_failed conn logGroupName name pre post e L Hpre), C. reflexivity.
Qed.

(** C10. FindLogStreamByTwoPartKey returns a stream and no error, or an
    error and no stream, never neither.  A nil page that is not the last
    one is passed over: the result is that of the listing without it.  A
    nil page that is the last one ends a scan that found nothing with the
    empty result error. *)
Theorem FindLogStreamByTwoPartKey_stream_or_error :
  forall (conn : CloudWatchLogs) (logGroupName name : string),
    ((exists v, logs.FindLogStreamByTwoPartKey conn logGroupName name = (Some v, None))
     \/ (exists e, logs.FindLogStreamByTwoPartKey conn logGroupName name = (None, Some e)))
    /\ (forall (conn' : CloudWatchLogs) (pre post : list pageResponse),
          DescribeLogStreams conn (listing logGroupName name) = pre ++ PageOK None :: post ->
          post <> [] ->
          DescribeLogStreams conn' (listing logGroupName name) = pre ++ post ->
          logs.FindLogStreamByTwoPartKey conn logGroupName name
          = logs.FindLogStreamByTwoPartKey conn' logGroupName name)
    /\ (forall pre : list pageResponse,
          DescribeLogStreams conn (listing logGroupName name) = pre ++ [PageOK None] ->
          forallb (pageWithout name) pre = true ->
          logs.FindLogStreamByTwoPartKey conn logGroupName name =
          (None, Some (tfresource.NewEmptyResultError
                         (ReqDescribeLogStreams (listing logGroupName name))))).
Proof.
  intros conn logGroupName name. split; [|split].
  - rewrite Find_unfold.
    destruct (pages _ _ _) as [output [e|]].
    + right. destruct (tfawserr.ErrCodeEquals _ _); eexists; reflexivity.
    + cbn [tfawserr.ErrCodeEquals]. destruct output as [v|].
      * left. exists v. reflexivity.
      * right. eexists. reflexivity.
  - intros conn' pre post L Hpost L'.
    rewrite !Find_unfold, L, L', (pages_nil_page name pre post None Hpost). reflexivity.
  - intros pre L Hpre. apply Find_exhausted. rewrite L, forallb_app, Hpre. reflexivity.
Qed.

(** C2, on a listing: the stream "app" is the second of the third page,
    after a nil page, and a later request would fail. *)
Lemma FindLogStreamByTwoPartKey_first_match_witness :
  logs.FindLogStreamByTwoPartKey (sampleLogs sampleListing None) "group" "app"
  = (Some (sampleStream "app" "arn:4"), None).
Proof.
  refine (proj1 (proj1 (FindLogStreamByTwoPartKey_first_match
                          (sampleLogs sampleListing None) "group" "app")
                   [samplePage [sampleStream "app-1" "arn:1"; sampleStream "app-2" "arn:2"];
                    PageOK None]
                   [PageErr throttled]
                   {| DescribeLogStreamsOutput.LogStreams :=
                        [sampleStream "app-3" "arn:3"; sampleStream "app" "arn:4";
                         sampleStream "app" "arn:5"] |}
                   [sampleStream "app-3" "arn:3"] [sampleStream "app" "arn:5"]
                   (sampleStream "app" "arn:4") _ _ _ _ _)); reflexivity.
Defined.

(** C10, on a listing: dropping the nil page between two pages leaves the
    result as it is. *)
Lemma FindLogStreamByTwoPartKey_stream_or_error_witness :
  logs.FindLogStreamByTwoPartKey (sampleLogs sampleListing None) "group" "app"
  = logs.FindLogStreamByTwoPartKey
      (sampleLogs
         [ samplePage [sampleStream "app-1" "arn:1"; sampleStream "app-2" "arn:2"];
           samplePage [sampleStream "app-3" "arn:3"; sampleStream "app" "arn:4";
                       sampleStream "app" "arn:5"];
           PageErr throttled ] None)
      "group" "app".
Proof.
  refine (proj1 (proj2 (FindLogStreamByTwoPartKey_stream_or_error
                          (sampleLogs sampleListing None) "group" "app"))
            _ [samplePage [sampleStream "app-1" "arn:1"; sampleStream "app-2" "arn:2"]]
            [samplePage [sampleStream "app-3" "arn:3"; sampleStream "app" "arn:4";
                         sampleStream "app" "arn:5"];
             PageErr throttled] _ _ _);
    [reflexivity | discriminate | reflexivity].
Defined.

(** * The log stream: Read, Delete and Import *)

(** A listing of an absent stream ends without a stream, and without an
    error or with the error of a log group that is gone. *)
Lemma pages_absent (name : string) (rs : list pageResponse) (output : option LogStream.t) :
  streamAbsent name rs = true ->
  pages rs (logs.findPage name) output = (output, None)
  \/ exists e, pages rs (logs.findPage name) output = (output, Some e)
               /\ tfawserr.ErrCodeEquals (Some e) ErrCodeResourceNotFoundException = true.
Proof.
  induction rs as [|r rs IH]; intros H; [left; reflexivity|].
  destruct r as [page|e].
  - cbn [streamAbsent] in H. apply andb_prop in H as [Hr H].
    cbn [pages]. rewrite (findPage_without name _ _ _ Hr).
    destruct rs; [left; reflexivity|]. simpl negb. cbv iota. exact (IH H).
  - right. exists e. split; [reflexivity | exact H].
Qed.

Lemma Find_absent (conn : CloudWatchLogs) (logGroupName name : string) :
  streamAbsent name (DescribeLogStreams conn (listing logGroupName name)) = true ->
  exists e, logs.FindLogStreamByTwoPartKey conn logGroupName name = (None, Some e)
            /\ tfresource.isNotFound e = true.
Proof.
  intros H. rewrite Find_unfold.
  destruct (pages_absent name _ None H) as [E | [e [E C]]]; rewrite E.
  - eexists. split; reflexivity.
  - rewrite C. eexists. split; reflexivity.
Qed.

Lemma resourceStreamRead_absent (conn : CloudWatchLogs) (d : ResourceData) :
  IsNewResource d = false ->
  streamAbsent (Id d) (DescribeLogStreams conn (listing (log_group_name d) (Id d))) = true ->
  logs.resourceStreamRead d conn = Returned (SetId d "", None).
Proof.
  intros N H. unfold logs.resourceStreamRead.
  destruct (Find_absent conn _ _ H) as [e [E F]]. rewrite E, N. simpl. rewrite F.
  reflexivity.
Qed.

(** While the resource is being created the same absence is an error. *)
Lemma resourceStreamRead_absent_new (conn : CloudWatchLogs) (d : ResourceData) :
  IsNewResource d = true ->
  streamAbsent (Id d) (DescribeLogStreams conn (listing (log_group_name d) (Id d))) = true ->
  exists e, logs.resourceStreamRead d conn = Returned (d, Some e).
Proof.
  intros N H. unfold logs.resourceStreamRead.
  destruct (Find_absent conn _ _ H) as [e [E F]]. rewrite E, N. simpl.
  eexists. reflexivity.
Qed.


Lemma resourceStreamDelete_cases (conn : CloudWatchLogs) (d : ResourceData) :
  let err := DeleteLogStream conn
               {| DeleteLogStreamInput.LogGroupName := aws.String (log_group_name d);
                  DeleteLogStreamInput.LogStreamName := aws.String (Id d) |} in
  logs.resourceStreamDelete d conn =
  match err with
  | None => (d, None)
  | Some e =>
      if tfawserr.ErrCodeEquals (Some e) ErrCodeResourceNotFoundException then (d, None)
      else (d, Some (Errorf "deleting CloudWatch Logs Log Stream (%s): %w" [Id d] (Some e)))
  end.
Proof.
  intros err. unfold logs.resourceStreamDelete. fold err.
  destruct err as [e|]; [|reflexivity]. reflexivity.
Qed.

Lemma resourceStreamImport_two (d : ResourceData) (logGroupName logStreamName : string) :
  strings.Split (Id d) ":" = [logGroupName; logStreamName] ->
  logs.resourceStreamImport d =
  (Set_log_group_name (SetId d logStreamName) logGroupName,
   [Set_log_group_name (SetId d logStreamName) logGroupName], None).
Proof. intros E. unfold logs.resourceStreamImport. rewrite E. reflexivity. Qed.

Lemma resourceStreamImport_other (d : ResourceData) :
  length (strings.Split (Id d) ":") <> 2 ->
  logs.resourceStreamImport d =
  (d, [],
   Some (Errorf "wrong format of import ID (%s), use: 'log-group-name:log-stream-name'"
                [Id d] None)).
Proof.
  intros L. unfold logs.resourceStreamImport.
  destruct (strings.Split (Id d) ":") as [|a [|b [|c l]]]; try reflexivity.
  exfalso. apply L. reflexivity.
Qed.

(** * Diagnostics *)

Lemma Contains_error (diags : diag.Diagnostics) (d : diag.Diagnostic) :
  diag.Contains diags d = true -> diag.isError d = true -> diag.HasError diags = true.
Proof.
  unfold diag.Contains, diag.HasError. intros C E.
  apply existsb_exists in C as [d' [I Q]]. apply existsb_exists. exists d'.
  split; [exact I|]. unfold diag.Equal in Q.
  apply andb_prop in Q as [Q _]. apply andb_prop in Q as [Q _].
  apply Bool.eqb_prop in Q. congruence.
Qed.

Lemma HasError_Append (diags new : diag.Diagnostics) :
  diag.HasError (diag.Append diags new) = diag.HasError diags || diag.HasError new.
Proof.
  revert diags. induction new as [|d new IH]; intros diags; simpl.
  - rewrite orb_false_r. reflexivity.
  - rewrite IH. destruct (diag.Contains diags d) eqn:C.
    + destruct (diag.isError d) eqn:E; simpl; [|reflexivity].
      rewrite (Contains_error diags d C E). reflexivity.
    + unfold diag.HasError at 1. rewrite existsb_app. simpl.
      rewrite orb_false_r, <- orb_assoc. reflexivity.
Qed.

Lemma HasError_AddError (diags : diag.Diagnostics) (summary detail : string) :
  diag.HasError (diag.AddError diags summary detail) = true.
Proof. unfold diag.AddError. rewrite HasError_Append. apply orb_true_r. Qed.

Lemma Append_nil (diags : diag.Diagnostics) : diag.Append diags [] = diags.
Proof. reflexivity. Qed.

Lemma Equal_eq (d d' : diag.Diagnostic) : diag.Equal d d' = true -> d = d'.
Proof.
  unfold diag.Equal, diag.isError. destruct d as [v s t], d' as [v' s' t']; simpl.
  intros H. apply andb_prop in H as [H Ht]. apply andb_prop in H as [Hv Hs].
  apply String.eqb_eq in Hs, Ht. subst.
  destruct v, v'; try reflexivity; discriminate Hv.
Qed.

Lemma In_AddError (diags : diag.Diagnostics) (summary detail : string) :
  In (diag.NewErrorDiagnostic summary detail) (diag.AddError diags summary detail).
Proof.
  unfold diag.AddError. cbn [diag.Append].
  destruct (diag.Contains diags _) eqn:C.
  - unfold diag.Contains in C. apply existsb_exists in C as [d' [I E]].
    apply Equal_eq in E. subst d'. exact I.
  - apply in_or_app. right. left. reflexivity.
Qed.

(** * The user pool client: nested blocks *)

Section NestedBlocks.

Import cognitoidentityprovider cognitoidp.

Lemma ElementsAs_Append (A : Type) (l : types.List A) (diags : diag.Diagnostics) :
  diag.HasError diags = false ->
  diag.HasError (diag.Append diags (snd (types.ElementsAs l)))
  = match l with types.ListUnknown => true | _ => false end.
Proof.
  intros H. rewrite HasError_Append, H. destruct l; reflexivity.
Qed.

Lemma expandAnaylticsConfiguration_clean (l : types.List analyticsConfiguration)
    (diags : diag.Diagnostics) :
  diag.HasError diags = false ->
  fst (expandAnaylticsConfiguration l diags) =
  match l with
  | types.ListValue [ac] => analyticsConfiguration_expand ac
  | _ => None
  end.
Proof.
  intros H. unfold expandAnaylticsConfiguration.
  pose proof (ElementsAs_Append _ l diags H) as E.
  destruct (types.ElementsAs l) as [analytics ds] eqn:Q. simpl in E. rewrite E.
  destruct l as [| |[|ac [|ac' l]]]; inversion Q; reflexivity.
Qed.

Lemma expandTokenValidityUnits_clean (l : types.List tokenValidityUnits)
    (diags : diag.Diagnostics) :
  diag.HasError diags = false ->
  fst (expandTokenValidityUnits l diags) =
  match l with
  | types.ListValue [tvu] => tokenValidityUnits_expand tvu
  | _ => None
  end.
Proof.
  intros H. unfold expandTokenValidityUnits.
  pose proof (ElementsAs_Append _ l diags H) as E.
  destruct (types.ElementsAs l) as [units ds] eqn:Q. simpl in E. rewrite E.
  destruct l as [| |[|tvu [|tvu' l]]]; inversion Q; reflexivity.
Qed.

(** With an error among the diagnostics on entry both return nil. *)
Lemma expand_after_error (diags : diag.Diagnostics) :
  diag.HasError diags = true ->
  (forall l, fst (expandAnaylticsConfiguration l diags) = None)
  /\ (forall l, fst (expandTokenValidityUnits l diags) = None).
Proof.
  intros H. split; intros l.
  - unfold expandAnaylticsConfiguration. destruct (types.ElementsAs l) as [x ds].
    rewrite HasError_Append, H. reflexivity.
  - unfold expandTokenValidityUnits. destruct (types.ElementsAs l) as [x ds].
    rewrite HasError_Append, H. reflexivity.
Qed.

(** C7. Called with diagnostics that hold no error, each of the two
    expansion functions returns a struct exactly when the list is a known
    list of one element, whose fields it converts one by one; it returns
    nil for the null list and for the empty list. *)
Theorem expand_singleton_blocks (diags : diag.Diagnostics) :
  diag.HasError diags = false ->
  (forall l : types.List analyticsConfiguration,
     isNil (fst (expandAnaylticsConfiguration l diags)) = false
     <-> exists ac, l = types.ListValue [ac])
  /\ (forall ac : analyticsConfiguration,
        fst (expandAnaylticsConfiguration (types.ListValue [ac]) diags) =
        Some {| AnalyticsConfigurationType.ApplicationArn :=
                  flex.ARNStringFromFramework (ApplicationARN ac);
                AnalyticsConfigurationType.ApplicationId :=
                  flex.StringFromFramework (ApplicationID ac);
                AnalyticsConfigurationType.ExternalId :=
                  flex.StringFromFramework (ExternalID ac);
                AnalyticsConfigurationType.RoleArn :=
                  flex.ARNStringFromFramework (RoleARN ac);
                AnalyticsConfigurationType.UserDataShared :=
                  flex.BoolFromFramework (UserDataShared ac) |})
  /\ fst (expandAnaylticsConfiguration types.ListNull diags) = None
  /\ fst (expandAnaylticsConfiguration (types.ListValue []) diags) = None
  /\ (forall l : types.List tokenValidityUnits,
        isNil (fst (expandTokenValidityUnits l diags)) = false
        <-> exists tvu, l = types.ListValue [tvu])
  /\ (forall tvu : tokenValidityUnits,
        fst (expandTokenValidityUnits (types.ListValue [tvu]) diags) =
        Some {| TokenValidityUnitsType.AccessToken :=
                  flex.StringFromFramework (AccessToken tvu);
                TokenValidityUnitsType.IdToken := flex.StringFromFramework (IdToken tvu);
                TokenValidityUnitsType.RefreshToken :=
                  flex.StringFromFramework (RefreshToken tvu) |})
  /\ fst (expandTokenValidityUnits types.ListNull diags) = None
  /\ fst (expandTokenValidityUnits (types.ListValue []) diags) = None.
Proof.
  intros H.
  assert (EA := fun l => expandAnaylticsConfiguration_clean l diags H).
  assert (ET := fun l => expandTokenValidityUnits_clean l diags H).
  split; [|split; [|split; [|split; [|split; [|split; [|split]]]]]].
  - intros l. rewrite EA. split.
    + destruct l as [| |[|ac [|ac' l]]]; simpl; try discriminate. eauto.
    + intros [ac ->]. reflexivity.
  - intros ac. rewrite EA. reflexivity.
  - rewrite EA. reflexivity.
  - rewrite EA. reflexivity.
  - intros l. rewrite ET. split.
    + destruct l as [| |[|tvu [|tvu' l]]]; simpl; try discriminate. eauto.
    + intros [tvu ->]. reflexivity.
  - intros tvu. rewrite ET. reflexivity.
  - rewrite ET. reflexivity.
  - rewrite ET. reflexivity.
Qed.

Lemma StringFromFramework_StringToFramework (v : option string) :
  flex.StringFromFramework (flex.StringToFramework v) = v.
Proof. destruct v; reflexivity. Qed.

(** C9. flattenTokenValidityUnits returns the null list exactly when its
    argument is nil or has its three fields nil.  Otherwise it returns a
    list of one element that expandTokenValidityUnits, called with
    diagnostics that hold no error, turns back into the argument.  A
    struct with its three fields nil is flattened to the null list and
    expanded to nil. *)
Theorem flatten_expand_token_validity_units
    (tvu : option TokenValidityUnitsType.t) (diags : diag.Diagnostics) :
  diag.HasError diags = false ->
  (flattenTokenValidityUnits tvu = types.ListNull
   <-> tvu = None
       \/ exists t, tvu = Some t
                    /\ TokenValidityUnitsType.AccessToken t = None
                    /\ TokenValidityUnitsType.IdToken t = None
                    /\ TokenValidityUnitsType.RefreshToken t = None)
  /\ (flattenTokenValidityUnits tvu <> types.ListNull ->
      (exists e, flattenTokenValidityUnits tvu = types.ListValue [e])
      /\ fst (expandTokenValidityUnits (flattenTokenValidityUnits tvu) diags) = tvu)
  /\ (flattenTokenValidityUnits tvu = types.ListNull ->
      fst (expandTokenValidityUnits (flattenTokenValidityUnits tvu) diags) = None).
Proof.
  intros H. split; [|split].
  - destruct tvu as [[a i r]|]; simpl.
    + destruct a, i, r; simpl; split; intros E; try discriminate E;
        try (destruct E as [E | [t [E [Ea [Ei Er]]]]];
             [discriminate E | injection E as <-; simpl in *; discriminate]).
      * right. eexists. repeat split.
      * reflexivity.
    + split; [left; reflexivity | reflexivity].
  - intros N. rewrite (expandTokenValidityUnits_clean _ diags H).
    destruct tvu as [[a i r]|]; [|contradiction N; reflexivity].
    unfold flattenTokenValidityUnits in *. cbn [TokenValidityUnitsType.AccessToken
      TokenValidityUnitsType.IdToken TokenValidityUnitsType.RefreshToken] in *.
    destruct (isNil a && isNil i && isNil r); [contradiction N; reflexivity|].
    split; [eexists; reflexivity|].
    unfold tokenValidityUnits_expand; simpl.
    rewrite !StringFromFramework_StringToFramework. reflexivity.
  - intros E. rewrite E. rewrite (expandTokenValidityUnits_clean _ diags H). reflexivity.
Qed.

End NestedBlocks.

(** * The retry helper *)

Lemma if_inspect {T : Type} (cond b : bool) (e : cond = b) (X Y : T) :
  (if b as b0 return cond = b0 -> T then fun _ => X else fun _ => Y) e
  = if b then X else Y.
Proof. destruct b; reflexivity. Qed.

Lemma retryLoop_unfold {A : Type} (timeout : time.Duration)
    (f : nat -> (A + error) * positive) (c : string) (n : nat) (t : Z) :
  tfresource.retryLoop timeout f c n t =
  match f n with
  | (inl output, _) => (inl output, S n)
  | (inr err, d) =>
      if tfawserr.ErrCodeEquals (Some err) c && (t + Z.pos d <? timeout)%Z
      then tfresource.retryLoop timeout f c (S n) (t + Z.pos d)%Z
      else (inr err, S n)
  end.
Proof.
  rewrite tfresource.retryLoop_equation_1.
  destruct (f n) as [[output|err] d]; simpl.
  - reflexivity.
  - apply (if_inspect _ _ eq_refl).
Qed.

Section Retry.

Context {A : Type}.
Variable timeout : time.Duration.
Variable f : nat -> (A + error) * positive.
Variable c : string.




End Retry.


(** * The user pool client: mapping the response onto the state *)

Section UserPoolClient.

Import cognitoidentityprovider cognitoidp.

Lemma StringToFrameworkARN_fst (v : option string) (diags : diag.Diagnostics) :
  fst (flex.StringToFrameworkARN v diags) = fst (flex.StringToFrameworkARN v []).
Proof. destruct v as [s|]; simpl; [destruct (arn.Parse s)|]; reflexivity. Qed.

Lemma flattenAnaylticsConfiguration_fst (ac : option AnalyticsConfigurationType.t)
    (diags : diag.Diagnostics) :
  fst (flattenAnaylticsConfiguration ac diags) = fst (flattenAnaylticsConfiguration ac []).
Proof.
  destruct ac as [ac|]; [|reflexivity]. unfold flattenAnaylticsConfiguration.
  pose proof (StringToFrameworkARN_fst (AnalyticsConfigurationType.ApplicationArn ac) diags)
    as E1.
  destruct (flex.StringToFrameworkARN (AnalyticsConfigurationType.ApplicationArn ac) diags)
    as [a1 d1].
  destruct (flex.StringToFrameworkARN (AnalyticsConfigurationType.ApplicationArn ac) [])
    as [a1' d1'].
  pose proof (StringToFrameworkARN_fst (AnalyticsConfigurationType.RoleArn ac) d1) as E2.
  pose proof (StringToFrameworkARN_fst (AnalyticsConfigurationType.RoleArn ac) d1') as E3.
  destruct (flex.StringToFrameworkARN (AnalyticsConfigurationType.RoleArn ac) d1)
    as [a2 d2].
  destruct (flex.StringToFrameworkARN (AnalyticsConfigurationType.RoleArn ac) d1')
    as [a2' d2'].
  simpl in *. congruence.
Qed.

(** The mapping: 23 attributes come from the response, [GenerateSecret]
    stays as it was. *)
Lemma update_mirrors (data : resourceUserPoolClientData) (inp : UserPoolClientType.t)
    (diags : diag.Diagnostics) :
  mirrors (fst (update data inp diags)) inp
  /\ GenerateSecret (fst (update data inp diags)) = GenerateSecret data.
Proof.
  unfold update.
  pose proof (flattenAnaylticsConfiguration_fst
                (UserPoolClientType.AnalyticsConfiguration inp) diags) as E.
  destruct (flattenAnaylticsConfiguration _ diags) as [analytics diags'].
  simpl in E. unfold mirrors. cbn -[flattenAnaylticsConfiguration].
  rewrite E. repeat split.
Qed.

(** The mapping reports an error only for an ARN that does not parse; the
    diagnostics on entry stay. *)
Lemma update_keeps_errors (data : resourceUserPoolClientData) (inp : UserPoolClientType.t)
    (diags : diag.Diagnostics) :
  diag.HasError diags = true -> diag.HasError (snd (update data inp diags)) = true.
Proof.
  intros H. unfold update, flattenAnaylticsConfiguration.
  assert (K : forall v ds, diag.HasError ds = true ->
                diag.HasError (snd (flex.StringToFrameworkARN v ds)) = true).
  { intros v ds Hds. destruct v as [s|]; simpl; [|exact Hds].
    destruct (arn.Parse s); simpl; [exact Hds | apply HasError_AddError]. }
  destruct (UserPoolClientType.AnalyticsConfiguration inp) as [ac|]; [|exact H].
  pose proof (K (AnalyticsConfigurationType.ApplicationArn ac) diags H) as K1.
  destruct (flex.StringToFrameworkARN (AnalyticsConfigurationType.ApplicationArn ac) diags)
    as [a1 d1].
  pose proof (K (AnalyticsConfigurationType.RoleArn ac) d1 K1) as K2.
  destruct (flex.StringToFrameworkARN (AnalyticsConfigurationType.RoleArn ac) d1)
    as [a2 d2].
  exact K2.
Qed.

(** *** What the operations leave in the state *)




End UserPoolClient.

(** * The user pool client: the operations *)

Section Operations.

Import cognitoidentityprovider cognitoidp.

Lemma afterGet_clean (response : Response) (config plan : source) :
  diag.HasError (afterGet response config plan) = false ->
  diag.HasError (diag.Append (Diagnostics response) (getDiags config)) = false.
Proof.
  unfold afterGet. rewrite HasError_Append. intros H.
  apply orb_false_elim in H as [H _]. exact H.
Qed.

(** Create with a request that is read and expanded without error. *)
Lemma Create_run (conn : CognitoIdentityProvider) (request : CreateRequest.t)
    (response : Response) (params : CreateUserPoolClientInput.t) (diags : diag.Diagnostics) :
  diag.HasError
    (afterGet response (CreateRequest.Config request) (CreateRequest.Plan request)) = false ->
  createInput (target (CreateRequest.Plan request))
    (afterGet response (CreateRequest.Config request) (CreateRequest.Plan request))
  = (params, diags) ->
  diag.HasError diags = false ->
  Create conn request response =
  match CreateUserPoolClientWithContext conn params with
  | inr err =>
      AddError {| State := State response; Diagnostics := diags |}
        (fmt.Sprintf "creating Cognito User Pool Client (%s)"
           [ValueString (Name (target (CreateRequest.Plan request)))])
        (Error err)
  | inl resp =>
      let mapped := update (target (CreateRequest.Config request))
                      (CreateUserPoolClientOutput.UserPoolClient resp) diags in
      if diag.HasError (snd mapped)
      then {| State := State response; Diagnostics := snd mapped |}
      else {| State := Some (fst mapped); Diagnostics := snd mapped |}
  end.
Proof.
  intros H0 HI H1. unfold Create. cbn [appendDiagnostics setDiagnostics Diagnostics State].
  rewrite (afterGet_clean _ _ _ H0). fold (afterGet response (CreateRequest.Config request)
                                             (CreateRequest.Plan request)).
  rewrite H0, HI. cbn [Diagnostics]. rewrite H1.
  destruct (CreateUserPoolClientWithContext conn params) as [resp|err]; [|reflexivity].
  cbv zeta. destruct (update _ _ diags) as [config diags']. cbn [fst snd Diagnostics].
  destruct (diag.HasError diags'); reflexivity.
Qed.


Lemma Read_gone (conn : CognitoIdentityProvider) (request : ReadRequest.t)
    (response : Response) :
  diag.HasError (Diagnostics response) = false ->
  diag.HasError (getDiags (ReadRequest.State request)) = false ->
  clientGone conn (ValueString (UserPoolID (target (ReadRequest.State request))))
             (ValueString (ID (target (ReadRequest.State request)))) = true ->
  Read conn request response =
  {| State := None;
     Diagnostics := diag.Append (Diagnostics response) (getDiags (ReadRequest.State request)) |}.
Proof.
  intros H0 H1 G. unfold Read. cbn [appendDiagnostics Diagnostics].
  rewrite HasError_Append, H0, H1. cbn [orb].
  unfold clientGone in G. unfold FindCognitoUserPoolClientByID.
  destruct (DescribeUserPoolClientWithContext conn _) as [output|err].
  - destruct (DescribeUserPoolClientOutput.UserPoolClient output); [discriminate G|].
    reflexivity.
  - rewrite G. reflexivity.
Qed.

Lemma Delete_run (conn : CognitoIdentityProvider) (request : DeleteRequest.t)
    (response : Response) :
  diag.HasError (Diagnostics response) = false ->
  diag.HasError (getDiags (DeleteRequest.State request)) = false ->
  let read := appendDiagnostics response (getDiags (DeleteRequest.State request)) in
  Delete conn request response =
  match DeleteUserPoolClientWithContext conn
          (deleteInput (target (DeleteRequest.State request))) with
  | None => read
  | Some e =>
      if tfawserr.ErrCodeEquals (Some e) ErrCodeResourceNotFoundException then read
      else AddError read
             (fmt.Sprintf "deleting Cognito User Pool Client (%s)"
                [ValueString (ID (target (DeleteRequest.State request)))])
             (Error e)
  end.
Proof.
  intros H0 H1 read. unfold Delete. fold read.
  assert (C : diag.HasError (Diagnostics read) = false).
  { unfold read. cbn [appendDiagnostics Diagnostics]. rewrite HasError_Append, H0, H1.
    reflexivity. }
  rewrite C. destruct (DeleteUserPoolClientWithContext conn _) as [e|]; reflexivity.
Qed.

Lemma ImportState_two (request : ImportStateRequest.t) (response : Response)
    (userPoolId clientId : string) :
  strings.Split (ImportStateRequest.ID request) "/" = [userPoolId; clientId] ->
  ImportState request response =
  Returned (State_SetAttribute_user_pool_id (State_SetAttribute_id response clientId)
              userPoolId).
Proof. intros E. unfold ImportState. rewrite E. reflexivity. Qed.

(** An identifier without the separator makes ImportState panic. *)
Lemma ImportState_without_separator (request : ImportStateRequest.t) (response : Response) :
  strings.Count (ImportStateRequest.ID request) "/" = 0 ->
  ImportState request response
  = Panic "runtime error: index out of range [1] with length 1".
Proof.
  intros C. unfold ImportState.
  pose proof (Split_length (ImportStateRequest.ID request) "/") as L. rewrite C in L.
  destruct (strings.Split (ImportStateRequest.ID request) "/") as [|a [|b l]];
    try discriminate L.
  reflexivity.
Qed.

(** An identifier with more than one separator makes ImportState report
    the error and set both attributes all the same. *)
Lemma ImportState_more_segments (request : ImportStateRequest.t) (response : Response) :
  2 <= strings.Count (ImportStateRequest.ID request) "/" ->
  exists userPoolId clientId r,
    ImportState request response = Returned r
    /\ diag.HasError (Diagnostics r) = true
    /\ option_map ID (State r) = Some (types.StringValue clientId)
    /\ option_map UserPoolID (State r) = Some (types.StringValue userPoolId).
Proof.
  intros C. unfold ImportState.
  pose proof (Split_length (ImportStateRequest.ID request) "/") as L.
  destruct (strings.Split (ImportStateRequest.ID request) "/") as [|a [|b [|c l]]];
    simpl in L; try lia.
  exists a, b. eexists. split; [reflexivity|]. split; [|split; reflexivity].
  cbn [length Nat.eqb negb index nth_error].
  cbn [State_SetAttribute_user_pool_id State_SetAttribute_id Diagnostics AddError].
  rewrite !Append_nil. apply HasError_AddError.
Qed.

End Operations.

(** * The claims about both resources *)

Section Claims.

Import cognitoidentityprovider cognitoidp.

(** C1. ImportState of the user pool client does not return after it has
    reported an identifier that is not of two segments: the identifier
    "us-east-1_pool", without separator, makes it panic on [parts[1]], and
    the identifier "pool/client/extra" makes it report the error and set
    both attributes nevertheless.  The import of the log stream returns
    the error and leaves the data as they are.  An identifier of two
    segments is imported by both. *)
Theorem ImportState_missing_return :
  ImportState {| ImportStateRequest.ID := "us-east-1_pool" |} emptyResponse
  = Panic "runtime error: index out of range [1] with length 1"
  /\ (exists r,
        ImportState {| ImportStateRequest.ID := "pool/client/extra" |} emptyResponse
        = Returned r
        /\ Diagnostics r =
           [diag.NewErrorDiagnostic "Resource Import Invalid ID"
              "wrong format of import ID (pool/client/extra), use: 'user-pool-id/client-id'"]
        /\ option_map ID (State r) = Some (types.StringValue "client")
        /\ option_map UserPoolID (State r) = Some (types.StringValue "pool"))
  /\ logs.resourceStreamImport (sampleData "group:stream:extra" "" false)
     = (sampleData "group:stream:extra" "" false, [],
        Some (Errorf "wrong format of import ID (%s), use: 'log-group-name:log-stream-name'"
                ["group:stream:extra"] None))
  /\ logs.resourceStreamImport (sampleData "group" "" false)
     = (sampleData "group" "" false, [],
        Some (Errorf "wrong format of import ID (%s), use: 'log-group-name:log-stream-name'"
                ["group"] None))
  /\ (exists r,
        ImportState {| ImportStateRequest.ID := "pool/client" |} emptyResponse = Returned r
        /\ Diagnostics r = []
        /\ option_map ID (State r) = Some (types.StringValue "client")
        /\ option_map UserPoolID (State r) = Some (types.StringValue "pool"))
  /\ (exists d,
        logs.resourceStreamImport (sampleData "group:stream" "" false) = (d, [d], None)
        /\ Id d = "stream" /\ log_group_name d = "group").
Proof.
  split; [|split; [|split; [|split; [|split]]]].
  - apply ImportState_without_separator. reflexivity.
  - eexists. repeat split.
  - apply resourceStreamImport_other. vm_compute. discriminate.
  - apply resourceStreamImport_other. vm_compute. discriminate.
  - eexists. repeat split.
  - eexists. repeat split.
Qed.

(** C5. Read of a resource that the service no longer has removes the
    resource from the state and reports no error: the log stream, read
    other than in the course of its creation, gets the empty id and the
    nil error; the user pool client, with a state that is read without
    error, gets no state and no error diagnostic. *)
Theorem Read_removes_absent_resource :
  (forall (conn : CloudWatchLogs) (d : ResourceData),
     IsNewResource d = false ->
     streamAbsent (Id d) (DescribeLogStreams conn (listing (log_group_name d) (Id d)))
     = true ->
     logs.resourceStreamRead d conn = Returned (SetId d "", None))
  /\ (forall (conn : CognitoIdentityProvider) (request : ReadRequest.t)
             (response : Response),
        diag.HasError (Diagnostics response) = false ->
        diag.HasError (getDiags (ReadRequest.State request)) = false ->
        clientGone conn (ValueString (UserPoolID (target (ReadRequest.State request))))
                   (ValueString (ID (target (ReadRequest.State request)))) = true ->
        State (Read conn request response) = None
        /\ diag.HasError (Diagnostics (Read conn request response)) = false).
Proof.
  split.
  - exact resourceStreamRead_absent.
  - intros conn request response H0 H1 G. rewrite (Read_gone conn request response H0 H1 G).
    cbn [State Diagnostics]. rewrite HasError_Append, H0, H1. split; reflexivity.
Qed.

(** C5, on sample values: the stream "app-9" is not in the listing, and
    the service has no client to describe. *)
Lemma Read_removes_absent_resource_witness :
  logs.resourceStreamRead (sampleData "app-9" "group" false)
    (sampleLogs [samplePage [sampleStream "app-1" "arn:1"]; PageOK None] None)
  = Returned (SetId (sampleData "app-9" "group" false) "", None) /\
  State (Read sampleCognito {| ReadRequest.State := sampleSource sampleConfig |}
           {| State := Some sampleConfig; Diagnostics := [] |}) = None.
Proof.
  split.
  - exact (proj1 Read_removes_absent_resource
             (sampleLogs [samplePage [sampleStream "app-1" "arn:1"]; PageOK None] None)
             (sampleData "app-9" "group" false) eq_refl eq_refl).
  - exact (proj1 (proj2 Read_removes_absent_resource sampleCognito
                    {| ReadRequest.State := sampleSource sampleConfig |}
                    {| State := Some sampleConfig; Diagnostics := [] |}
                    eq_refl eq_refl eq_refl)).
Defined.

(** C6. Delete succeeds when the remote deletion fails with the code
    ResourceNotFoundException, and reports every other failure: the log
    stream returns the nil error in the first case and an error that
    wraps the failure in the second; the user pool client, with a state
    that is read without error, adds no error diagnostic in the first
    case and one with the text of the failure in the second. *)
Theorem Delete_tolerates_not_found :
  (forall (conn : CloudWatchLogs) (d : ResourceData),
     let err := DeleteLogStream conn
                  {| DeleteLogStreamInput.LogGroupName := aws.String (log_group_name d);
                     DeleteLogStreamInput.LogStreamName := aws.String (Id d) |} in
     (tfawserr.ErrCodeEquals err cloudwatchlogs.ErrCodeResourceNotFoundException = true ->
      logs.resourceStreamDelete d conn = (d, None))
     /\ (err = None -> logs.resourceStreamDelete d conn = (d, None))
     /\ (forall e, err = Some e ->
           tfawserr.ErrCodeEquals err cloudwatchlogs.ErrCodeResourceNotFoundException
           = false ->
           logs.resourceStreamDelete d conn =
           (d, Some (Errorf "deleting CloudWatch Logs Log Stream (%s): %w" [Id d] (Some e)))))
  /\ (forall (conn : CognitoIdentityProvider) (request : DeleteRequest.t)
             (response : Response),
        diag.HasError (Diagnostics response) = false ->
        diag.HasError (getDiags (DeleteRequest.State request)) = false ->
        let err := DeleteUserPoolClientWithContext conn
                     (deleteInput (target (DeleteRequest.State request))) in
        (tfawserr.ErrCodeEquals err ErrCodeResourceNotFoundException = true ->
         diag.HasError (Diagnostics (Delete conn request response)) = false)
        /\ (err = None ->
            diag.HasError (Diagnostics (Delete conn request response)) = false)
        /\ (forall e, err = Some e ->
              tfawserr.ErrCodeEquals err ErrCodeResourceNotFoundException = false ->
              diag.HasError (Diagnostics (Delete conn request response)) = true
              /\ In (diag.NewErrorDiagnostic
                       (fmt.Sprintf "deleting Cognito User Pool Client (%s)"
                          [ValueString (ID (target (DeleteRequest.State request)))])
                       (Error e))
                    (Diagnostics (Delete conn request response)))).
Proof.
  split.
  - intros conn d err. pose proof (resourceStreamDelete_cases conn d) as E.
    cbv zeta in E. fold err in E. rewrite E. clear E.
    split; [|split].
    + intros C. destruct err as [e|]; [rewrite C|]; reflexivity.
    + intros ->. reflexivity.
    + intros e -> C. rewrite C. reflexivity.
  - intros conn request response H0 H1 err.
    pose proof (Delete_run conn request response H0 H1) as E. cbv zeta in E.
    fold err in E. rewrite E. clear E.
    assert (C0 : diag.HasError
                   (Diagnostics (appendDiagnostics response
                                   (getDiags (DeleteRequest.State request)))) = false).
    { cbn [appendDiagnostics Diagnostics]. rewrite HasError_Append, H0, H1. reflexivity. }
    split; [|split].
    + intros C. destruct err as [e|]; [rewrite C|]; exact C0.
    + intros ->. exact C0.
    + intros e -> C. rewrite C. cbn [AddError Diagnostics].
      split; [apply HasError_AddError | apply In_AddError].
Qed.

(** C6, on sample values: both services answer the deletion with the
    code ResourceNotFoundException. *)
Lemma Delete_tolerates_not_found_witness :
  logs.resourceStreamDelete (sampleData "app" "group" false) (sampleLogs [] (Some gone))
  = (sampleData "app" "group" false, None) /\
  diag.HasError
    (Diagnostics (Delete sampleCognito {| DeleteRequest.State := sampleSource sampleConfig |}
                    {| State := Some sampleConfig; Diagnostics := [] |})) = false.
Proof.
  split.
  - exact (proj1 (proj1 Delete_tolerates_not_found (sampleLogs [] (Some gone))
                    (sampleData "app" "group" false)) eq_refl).
  - exact (proj1 (proj2 Delete_tolerates_not_found sampleCognito
                    {| DeleteRequest.State := sampleSource sampleConfig |}
                    {| State := Some sampleConfig; Diagnostics := [] |}
                    eq_refl eq_refl) eq_refl).
Defined.






(** C7, on sample values, with a warning among the diagnostics. *)
Lemma expand_singleton_blocks_witness :
  fst (expandTokenValidityUnits
         (types.ListValue [ {| AccessToken := types.StringValue "hours";
                               IdToken := types.StringNull;
                               RefreshToken := types.StringValue "days" |} ])
         [sampleWarning])
  = Some {| TokenValidityUnitsType.AccessToken := Some "hours";
            TokenValidityUnitsType.IdToken := None;
            TokenValidityUnitsType.RefreshToken := Some "days" |}
  /\ fst (expandAnaylticsConfiguration types.ListNull [sampleWarning]) = None.
Proof.
  destruct (expand_singleton_blocks [sampleWarning] eq_refl)
    as (_ & _ & N & _ & _ & E & _ & _).
  split; [apply E | exact N].
Defined.

(** C9, on sample values: units with one field nil survive the round
    trip, units with all fields nil come back as nil. *)
Lemma flatten_expand_token_validity_units_witness :
  fst (expandTokenValidityUnits
         (flattenTokenValidityUnits
            (Some {| TokenValidityUnitsType.AccessToken := Some "hours";
                     TokenValidityUnitsType.IdToken := None;
                     TokenValidityUnitsType.RefreshToken := Some "days" |}))
         [])
  = Some {| TokenValidityUnitsType.AccessToken := Some "hours";
            TokenValidityUnitsType.IdToken := None;
            TokenValidityUnitsType.RefreshToken := Some "days" |}
  /\ fst (expandTokenValidityUnits
            (flattenTokenValidityUnits
               (Some {| TokenValidityUnitsType.AccessToken := None;
                        TokenValidityUnitsType.IdToken := None;
                        TokenValidityUnitsType.RefreshToken := None |}))
            [])
     = None.
Proof.
  split.
  - refine (proj2 (proj1 (proj2 (flatten_expand_token_validity_units
                                   (Some {| TokenValidityUnitsType.AccessToken := Some "hours";
                                            TokenValidityUnitsType.IdToken := None;
                                            TokenValidityUnitsType.RefreshToken :=
                                              Some "days" |})
                                   [] eq_refl)) _)).
    discriminate.
  - exact (proj2 (proj2 (flatten_expand_token_validity_units
                           (Some {| TokenValidityUnitsType.AccessToken := None;
                                    TokenValidityUnitsType.IdToken := None;
                                    TokenValidityUnitsType.RefreshToken := None |})
                           [] eq_refl)) eq_refl).
Defined.

End Claims.

(** * Further properties: splitting and joining *)

Lemma cut_Split (s : string) (sep : ascii) :
  strings.Split s sep = fst (strings.cut sep s) :: snd (strings.cut sep s).
Proof. unfold strings.Split. destruct (strings.cut sep s); reflexivity. Qed.

(** A string without the separator is its own only segment. *)
Lemma Split_without (s : string) (sep : ascii) :
  strings.Count s sep = 0 -> strings.Split s sep = [s].
Proof.
  rewrite cut_Split. induction s as [|c s IH]; simpl; [reflexivity|].
  destruct (strings.cut sep s) as [h t]. simpl in IH.
  destruct (Ascii.eqb c sep); simpl; [discriminate|].
  intros C. specialize (IH C). injection IH as -> ->. reflexivity.
Qed.

(** A separator after a string without one ends the first segment. *)
Lemma Split_app (a b : string) (sep : ascii) :
  strings.Count a sep = 0 ->
  strings.Split (a ++ String sep b) sep = a :: strings.Split b sep.
Proof.
  rewrite !cut_Split. induction a as [|c a IH]; simpl.
  - intros _. rewrite Ascii.eqb_refl. destruct (strings.cut sep b); reflexivity.
  - destruct (Ascii.eqb c sep); simpl; [discriminate|].
    intros C. specialize (IH C).
    destruct (strings.cut sep (a ++ String sep b)) as [h t]. simpl in IH.
    injection IH as -> ->. reflexivity.
Qed.

(** No segment holds the separator. *)
Lemma Split_segments (s : string) (sep : ascii) :
  Forall (fun x => strings.Count x sep = 0) (strings.Split s sep).
Proof.
  rewrite cut_Split. induction s as [|c s IH]; simpl.
  - repeat constructor.
  - destruct (strings.cut sep s) as [h t]. simpl in IH. inversion IH as [|x l Hh Ht]; subst.
    destruct (Ascii.eqb c sep) eqn:E; simpl.
    + constructor; [reflexivity | exact IH].
    + constructor; [simpl; rewrite E; exact Hh | exact Ht].
Qed.

(** Joining the segments with the separator gives the string back. *)
Lemma join_Split (s : string) (sep : ascii) :
  arn.join (String sep "") (strings.Split s sep) = s.
Proof.
  rewrite cut_Split. induction s as [|c s IH]; simpl; [reflexivity|].
  destruct (strings.cut sep s) as [h t]. cbn [fst snd] in *.
  destruct (Ascii.eqb_spec c sep) as [-> | N].
  - cbn [fst snd arn.join]. simpl. f_equal. exact IH.
  - cbn [fst snd]. destruct t as [|x t]; simpl in *.
    + f_equal. exact IH.
    + f_equal. exact IH.
Qed.

Lemma Count_MatchString (s : string) (sep : ascii) :
  strings.Count s sep = 0 <-> regexp.MatchString sep s = false.
Proof.
  induction s as [|c s IH]; simpl; [tauto|].
  destruct (Ascii.eqb c sep); simpl; [split; discriminate | exact IH].
Qed.

(** arn.Parse by its two tests: the first section and the number of
    sections. *)
Lemma Parse_sections (s : string) :
  arn.Parse s =
  match strings.Split s ":" with
  | [] => None
  | x0 :: l =>
      if String.eqb x0 "arn" then
        match l with
        | partition :: service :: region :: account :: resource :: rest =>
            Some {| arn.Partition := partition; arn.Service := service;
                    arn.Region := region; arn.AccountID := account;
                    arn.Resource := arn.join ":" (resource :: rest) |}
        | _ => None
        end
      else None
  end.
Proof.
  unfold arn.Parse. destruct (strings.Split s ":") as [|x0 l]; [reflexivity|].
  destruct x0 as [|c1 x0]; [reflexivity|].
  destruct c1 as [[] [] [] [] [] [] [] []]; try reflexivity.
  destruct x0 as [|c2 x0]; [reflexivity|].
  destruct c2 as [[] [] [] [] [] [] [] []]; try reflexivity.
  destruct x0 as [|c3 x0]; [reflexivity|].
  destruct c3 as [[] [] [] [] [] [] [] []]; try reflexivity.
  destruct x0 as [|c4 x0]; reflexivity.
Qed.

(** arn.String undoes arn.Parse. *)
Lemma arn_String_Parse (s : string) (a : arn.ARN) :
  arn.Parse s = Some a -> arn.String a = s.
Proof.
  rewrite Parse_sections. pose proof (join_Split s ":") as J.
  destruct (strings.Split s ":") as [|x0 l]; [discriminate|].
  destruct (String.eqb_spec x0 "arn") as [-> | N]; [|discriminate].
  destruct l as [|p [|sv [|r [|acc [|res rest]]]]]; try discriminate.
  intros E. injection E as <-. unfold arn.String. cbn [arn.Partition arn.Service
    arn.Region arn.AccountID arn.Resource]. rewrite <- J. reflexivity.
Qed.

(** * Further properties of the log stream *)

Lemma find_none_without (name : string) (l : list LogStream.t) :
  find (fun v => String.eqb (aws.StringValue (LogStream.LogStreamName v)) name) l = None ->
  forallb (fun v => negb (named name v)) l = true.
Proof.
  induction l as [|x l IH]; simpl; [reflexivity|]. unfold named at 1.
  destruct (String.eqb _ name); [discriminate|]. exact IH.
Qed.

(** A stream that the scan ends with was found in a page, after pages
    without the name. *)
Lemma pages_sound (name : string) (rs : list pageResponse)
    (output : option LogStream.t) (v : LogStream.t) (err : option error) :
  pages rs (logs.findPage name) output = (Some v, err) ->
  output = Some v
  \/ err = None
     /\ named name v = true
     /\ exists pre page post,
          rs = pre ++ PageOK (Some page) :: post
          /\ forallb (pageWithout name) pre = true
          /\ In v (DescribeLogStreamsOutput.LogStreams page).
Proof.
  induction rs as [|r rs IH]; intros H.
  - left. injection H as -> _. reflexivity.
  - destruct r as [page|e]; cbn [pages] in H.
    + destruct page as [page|].
      * cbn [logs.findPage] in H.
        destruct (find _ (DescribeLogStreamsOutput.LogStreams page)) as [w|] eqn:F.
        -- injection H as -> <-. right. apply find_some in F as [I N].
           split; [reflexivity | split; [exact N|]].
           exists [], page, rs. repeat split. exact I.
        -- destruct (negb _).
           ++ destruct (IH H) as [E | (E & N & pre & pg & post & -> & P & I)];
                [left; exact E | right].
              split; [exact E | split; [exact N|]].
              exists (PageOK (Some page) :: pre), pg, post. repeat split; [|exact I].
              simpl. rewrite (find_none_without name _ F). exact P.
           ++ left. injection H as -> _. reflexivity.
      * cbn [logs.findPage] in H. destruct (negb _).
        -- destruct (IH H) as [E | (E & N & pre & pg & post & -> & P & I)];
             [left; exact E | right].
           split; [exact E | split; [exact N|]].
           exists (PageOK None :: pre), pg, post. repeat split; [exact P | exact I].
        -- left. injection H as -> _. reflexivity.
    + left. injection H as -> _. reflexivity.
Qed.

(** X1. A stream that FindLogStreamByTwoPartKey returns comes without an
    error, bears exactly the requested name, not merely the prefix, and is
    listed on a page that the service answered after pages without that
    name. *)
Theorem FindLogStreamByTwoPartKey_sound
    (conn : CloudWatchLogs) (logGroupName name : string) (v : LogStream.t)
    (err : option error) :
  logs.FindLogStreamByTwoPartKey conn logGroupName name = (Some v, err) ->
  err = None
  /\ aws.StringValue (LogStream.LogStreamName v) = name
  /\ exists pre page post,
       DescribeLogStreams conn (listing logGroupName name)
       = pre ++ PageOK (Some page) :: post
       /\ forallb (pageWithout name) pre = true
       /\ In v (DescribeLogStreamsOutput.LogStreams page).
Proof.
  rewrite Find_unfold.
  destruct (pages _ _ None) as [output e] eqn:P.
  destruct (tfawserr.ErrCodeEquals e _); [discriminate|].
  destruct e as [e|]; [discriminate|].
  destruct output as [w|]; [|discriminate].
  intros H. injection H as -> <-.
  destruct (pages_sound name _ None v None P) as [E | (_ & N & X)]; [discriminate E|].
  split; [reflexivity | split; [apply String.eqb_eq; exact N | exact X]].
Qed.

Lemma FindLogStreamByTwoPartKey_sound_witness :
  @None error = None
  /\ aws.StringValue (LogStream.LogStreamName (sampleStream "app" "arn:4")) = "app"
  /\ exists pre page post,
       DescribeLogStreams (sampleLogs sampleListing None) (listing "group" "app")
       = pre ++ PageOK (Some page) :: post
       /\ forallb (pageWithout "app") pre = true
       /\ In (sampleStream "app" "arn:4") (DescribeLogStreamsOutput.LogStreams page).
Proof.
  exact (FindLogStreamByTwoPartKey_sound (sampleLogs sampleListing None) "group" "app"
           (sampleStream "app" "arn:4") None eq_refl).
Defined.

(** X2. When the listing fails with an error that is not the code
    ResourceNotFoundException and not a not-found error, before any page
    lists the stream, Read returns that error wrapped and leaves the data,
    the id included, as they are: a resource is not dropped from the state
    on such a failure. *)
Theorem resourceStreamRead_listing_failure
    (conn : CloudWatchLogs) (d : ResourceData) (pre post : list pageResponse) (e : error) :
  DescribeLogStreams conn (listing (log_group_name d) (Id d)) = pre ++ PageErr e :: post ->
  forallb (pageWithout (Id d)) pre = true ->
  tfawserr.ErrCodeEquals (Some e) ErrCodeResourceNotFoundException = false ->
  tfresource.isNotFound e = false ->
  logs.resourceStreamRead d conn
  = Returned (d, Some (Errorf "reading CloudWatch Logs Log Stream (%s): %w" [Id d] (Some e))).
Proof.
  intros L P C N. unfold logs.resourceStreamRead.
  rewrite (Find_failed conn _ _ pre post e L P), C. cbn [tfresource.NotFound].
  rewrite N, andb_false_r. reflexivity.
Qed.

Lemma resourceStreamRead_listing_failure_witness :
  logs.resourceStreamRead (sampleData "app-9" "group" false)
    (sampleLogs [samplePage [sampleStream "app-1" "arn:1"]; PageErr throttled] None)
  = Returned (sampleData "app-9" "group" false,
              Some (Errorf "reading CloudWatch Logs Log Stream (%s): %w" ["app-9"]
                      (Some throttled))).
Proof.
  exact (resourceStreamRead_listing_failure
           (sampleLogs [samplePage [sampleStream "app-1" "arn:1"]; PageErr throttled] None)
           (sampleData "app-9" "group" false)
           [samplePage [sampleStream "app-1" "arn:1"]] [] throttled
           eq_refl eq_refl eq_refl eq_refl).
Defined.

(** Read on a listing that shows the stream. *)
Lemma resourceStreamRead_listed
    (conn : CloudWatchLogs) (d : ResourceData) (pre post : list pageResponse)
    (page : DescribeLogStreamsOutput.t) (before after : list LogStream.t)
    (v : LogStream.t) :
  DescribeLogStreams conn (listing (log_group_name d) (Id d))
  = pre ++ PageOK (Some page) :: post ->
  forallb (pageWithout (Id d)) pre = true ->
  DescribeLogStreamsOutput.LogStreams page = before ++ v :: after ->
  forallb (fun v => negb (named (Id d) v)) before = true ->
  named (Id d) v = true ->
  logs.resourceStreamRead d conn
  = Returned ({| Id := Id d; arn := aws.StringValue (LogStream.Arn v);
                 log_group_name := log_group_name d; name := Id d;
                 IsNewResource := IsNewResource d |}, None).
Proof.
  intros L P E B N. unfold logs.resourceStreamRead.
  rewrite (Find_found conn _ _ pre post page before after v L P E B N).
  cbn [tfresource.NotFound]. rewrite andb_false_r.
  unfold Set_name, Set_arn. cbn [Id arn log_group_name name IsNewResource].
  apply String.eqb_eq in N. rewrite N. reflexivity.
Qed.

(** X3. When the listing shows the stream, Read returns no error, sets
    [arn] to the stream's ARN (the empty string for nil) and [name] to the
    id, and leaves the id, the log group name and the mark of a new
    resource as they are. *)
Theorem resourceStreamRead_found
    (conn : CloudWatchLogs) (d : ResourceData) (pre post : list pageResponse)
    (page : DescribeLogStreamsOutput.t) (before after : list LogStream.t)
    (v : LogStream.t) :
  DescribeLogStreams conn (listing (log_group_name d) (Id d))
  = pre ++ PageOK (Some page) :: post ->
  forallb (pageWithout (Id d)) pre = true ->
  DescribeLogStreamsOutput.LogStreams page = before ++ v :: after ->
  forallb (fun v => negb (named (Id d) v)) before = true ->
  named (Id d) v = true ->
  logs.resourceStreamRead d conn
  = Returned ({| Id := Id d; arn := aws.StringValue (LogStream.Arn v);
                 log_group_name := log_group_name d; name := Id d;
                 IsNewResource := IsNewResource d |}, None).
Proof.
  intros L P E B N. unfold logs.resourceStreamRead.
  rewrite (Find_found conn _ _ pre post page before after v L P E B N).
  cbn [tfresource.NotFound]. rewrite andb_false_r.
  unfold Set_name, Set_arn. cbn [Id arn log_group_name name IsNewResource].
  apply String.eqb_eq in N. rewrite N. reflexivity.
Qed.

Lemma resourceStreamRead_found_witness :
  logs.resourceStreamRead (sampleData "app" "group" false) (sampleLogs sampleListing None)
  = Returned ({| Id := "app"; arn := "arn:4"; log_group_name := "group"; name := "app";
                 IsNewResource := false |}, None).
Proof.
  exact (resourceStreamRead_found (sampleLogs sampleListing None)
           (sampleData "app" "group" false)
           [samplePage [sampleStream "app-1" "arn:1"; sampleStream "app-2" "arn:2"];
            PageOK None]
           [PageErr throttled]
           {| DescribeLogStreamsOutput.LogStreams :=
                [sampleStream "app-3" "arn:3"; sampleStream "app" "arn:4";
                 sampleStream "app" "arn:5"] |}
           [sampleStream "app-3" "arn:3"] [sampleStream "app" "arn:5"]
           (sampleStream "app" "arn:4") eq_refl eq_refl eq_refl eq_refl eq_refl).
Defined.


(** X5. When the remote create succeeds and the listing of the group shows
    a stream under the configured name, Create returns no error with that
    name as the id, the stream's ARN as [arn], and the log group name
    unchanged. *)
Theorem resourceStreamCreate_found
    (conn : CloudWatchLogs) (d : ResourceData) (pre post : list pageResponse)
    (page : DescribeLogStreamsOutput.t) (before after : list LogStream.t)
    (v : LogStream.t) :
  CreateLogStream conn
    {| CreateLogStreamInput.LogGroupName := aws.String (log_group_name d);
       CreateLogStreamInput.LogStreamName := aws.String (name d) |} = None ->
  DescribeLogStreams conn (listing (log_group_name d) (name d))
  = pre ++ PageOK (Some page) :: post ->
  forallb (pageWithout (name d)) pre = true ->
  DescribeLogStreamsOutput.LogStreams page = before ++ v :: after ->
  forallb (fun v => negb (named (name d) v)) before = true ->
  named (name d) v = true ->
  logs.resourceStreamCreate d conn
  = Returned ({| Id := name d; arn := aws.StringValue (LogStream.Arn v);
                 log_group_name := log_group_name d; name := name d;
                 IsNewResource := IsNewResource d |}, None).
Proof.
  intros C L P E B N. unfold logs.resourceStreamCreate. rewrite C.
  exact (resourceStreamRead_listed conn (SetId d (name d)) pre post page before after v
           L P E B N).
Qed.

Lemma resourceStreamCreate_found_witness :
  logs.resourceStreamCreate
    {| Id := ""; arn := ""; log_group_name := "group"; name := "app";
       IsNewResource := true |}
    (sampleLogs sampleListing None)
  = Returned ({| Id := "app"; arn := "arn:4"; log_group_name := "group"; name := "app";
                 IsNewResource := true |}, None).
Proof.
  exact (resourceStreamCreate_found (sampleLogs sampleListing None)
           {| Id := ""; arn := ""; log_group_name := "group"; name := "app";
              IsNewResource := true |}
           [samplePage [sampleStream "app-1" "arn:1"; sampleStream "app-2" "arn:2"];
            PageOK None]
           [PageErr throttled]
           {| DescribeLogStreamsOutput.LogStreams :=
                [sampleStream "app-3" "arn:3"; sampleStream "app" "arn:4";
                 sampleStream "app" "arn:5"] |}
           [sampleStream "app-3" "arn:3"] [sampleStream "app" "arn:5"]
           (sampleStream "app" "arn:4") eq_refl eq_refl eq_refl eq_refl eq_refl eq_refl).
Defined.

(** X6. Create sets the id only after the remote create succeeded: an
    error of the remote create is returned wrapped with the data as they
    were; when the remote create succeeded but the listing does not show
    the stream of a new resource, the id stays set to the name and the
    not-found error is returned wrapped as a read error. *)
Theorem resourceStreamCreate_failures (conn : CloudWatchLogs) (d : ResourceData) :
  let input := {| CreateLogStreamInput.LogGroupName := aws.String (log_group_name d);
                  CreateLogStreamInput.LogStreamName := aws.String (name d) |} in
  (forall err, CreateLogStream conn input = Some err ->
     logs.resourceStreamCreate d conn
     = Returned (d, Some (Errorf "creating CloudWatch Logs Log Stream (%s): %w" [name d]
                            (Some err))))
  /\ (CreateLogStream conn input = None ->
      IsNewResource d = true ->
      streamAbsent (name d) (DescribeLogStreams conn (listing (log_group_name d) (name d)))
      = true ->
      exists e,
        tfresource.isNotFound e = true
        /\ logs.resourceStreamCreate d conn
           = Returned (SetId d (name d),
                       Some (Errorf "reading CloudWatch Logs Log Stream (%s): %w" [name d]
                               (Some e)))).
Proof.
  intros input. split.
  - intros err C. unfold logs.resourceStreamCreate. fold input. rewrite C. reflexivity.
  - intros C N A. unfold logs.resourceStreamCreate. fold input. rewrite C.
    unfold logs.resourceStreamRead.
    destruct (Find_absent conn (log_group_name (SetId d (name d))) (Id (SetId d (name d))) A)
      as [e [E F]].
    exists e. split; [exact F|]. rewrite E. cbn [IsNewResource SetId]. rewrite N.
    reflexivity.
Qed.

Lemma resourceStreamCreate_failures_witness :
  exists e,
    tfresource.isNotFound e = true
    /\ logs.resourceStreamCreate
         {| Id := ""; arn := ""; log_group_name := "group"; name := "app-9";
            IsNewResource := true |}
         (sampleLogs [samplePage [sampleStream "app-1" "arn:1"]] None)
       = Returned ({| Id := "app-9"; arn := ""; log_group_name := "group"; name := "app-9";
                      IsNewResource := true |},
                   Some (Errorf "reading CloudWatch Logs Log Stream (%s): %w" ["app-9"]
                           (Some e))).
Proof.
  exact (proj2 (resourceStreamCreate_failures
                  (sampleLogs [samplePage [sampleStream "app-1" "arn:1"]] None)
                  {| Id := ""; arn := ""; log_group_name := "group"; name := "app-9";
                     IsNewResource := true |}) eq_refl eq_refl eq_refl).
Defined.

(** X7. Import splits an id made of a group name and a stream name without
    colons, joined by one colon, back into the two: the stream name becomes
    the id, the group name becomes [log_group_name], and the one data
    object is returned without an error. *)
Theorem resourceStreamImport_round_trip (d : ResourceData) (g n : string) :
  strings.Count g ":" = 0 ->
  strings.Count n ":" = 0 ->
  Id d = (g ++ ":" ++ n)%string ->
  logs.resourceStreamImport d
  = (Set_log_group_name (SetId d n) g, [Set_log_group_name (SetId d n) g], None).
Proof.
  intros G N E. apply resourceStreamImport_two. rewrite E.
  change (g ++ ":" ++ n)%string with (g ++ String ":" n)%string.
  rewrite (Split_app g n ":" G), (Split_without n ":" N). reflexivity.
Qed.

Lemma resourceStreamImport_round_trip_witness :
  logs.resourceStreamImport (sampleData "group:app" "" false)
  = (Set_log_group_name (SetId (sampleData "group:app" "" false) "app") "group",
     [Set_log_group_name (SetId (sampleData "group:app" "" false) "app") "group"], None).
Proof.
  exact (resourceStreamImport_round_trip (sampleData "group:app" "" false) "group" "app"
           eq_refl eq_refl eq_refl).
Defined.

(** X8. Import succeeds exactly on an id with one colon.  Any other id
    gives the format error, no data object, and leaves the data alone.  On
    success the id was the imported group name, a colon and the imported
    stream name; neither holds a colon, and [arn] and [name] are not
    touched. *)
Theorem resourceStreamImport_iff_one_colon :
  (forall d, snd (logs.resourceStreamImport d) = None <-> strings.Count (Id d) ":" = 1)
  /\ (forall d, strings.Count (Id d) ":" <> 1 ->
        logs.resourceStreamImport d
        = (d, [],
           Some (Errorf
                   "wrong format of import ID (%s), use: 'log-group-name:log-stream-name'"
                   [Id d] None)))
  /\ (forall d d' l, logs.resourceStreamImport d = (d', l, None) ->
        l = [d']
        /\ Id d = (log_group_name d' ++ ":" ++ Id d')%string
        /\ regexp.MatchString ":" (Id d') = false
        /\ regexp.MatchString ":" (log_group_name d') = false
        /\ arn d' = arn d /\ name d' = name d).
Proof.
  split; [|split].
  - intros d. pose proof (Split_length (Id d) ":") as L.
    unfold logs.resourceStreamImport.
    destruct (strings.Split (Id d) ":") as [|a [|b [|c l]]]; simpl in *;
      split; intros H; try discriminate; try reflexivity; lia.
  - intros d H. apply resourceStreamImport_other. rewrite Split_length. lia.
  - intros d d' l H. unfold logs.resourceStreamImport in H.
    pose proof (join_Split (Id d) ":") as J.
    pose proof (Split_segments (Id d) ":") as S.
    destruct (strings.Split (Id d) ":") as [|a [|b [|c r]]]; try discriminate.
    injection H as <- <-. cbn [Id log_group_name arn name Set_log_group_name SetId].
    inversion S as [|? ? Sa S']; subst. inversion S' as [|? ? Sb _]; subst.
    apply Count_MatchString in Sa, Sb.
    repeat split; try assumption. rewrite <- J. reflexivity.
Qed.

(** * Further properties of the user pool client *)

Section FurtherUserPoolClient.

Import cognitoidentityprovider cognitoidp.

(** X9. ImportState splits an id made of a user pool id and a client id
    without slashes, joined by one slash, back into the two: it returns
    with the diagnostics as they were and a state whose [id] is the client
    id and whose [user_pool_id] is the pool id, so that a deletion of that
    state names this client. *)
Theorem ImportState_round_trip
    (request : ImportStateRequest.t) (response : Response) (p c : string) :
  strings.Count p "/" = 0 ->
  strings.Count c "/" = 0 ->
  ImportStateRequest.ID request = (p ++ "/" ++ c)%string ->
  exists data,
    ImportState request response
    = Returned {| State := Some data; Diagnostics := Diagnostics response |}
    /\ ID data = types.StringValue c
    /\ UserPoolID data = types.StringValue p
    /\ deleteInput data
       = {| DeleteUserPoolClientInput.ClientId := Some c;
            DeleteUserPoolClientInput.UserPoolId := Some p |}.
Proof.
  intros P C E.
  assert (S : strings.Split (ImportStateRequest.ID request) "/" = [p; c]).
  { rewrite E. change (p ++ "/" ++ c)%string with (p ++ String "/" c)%string.
    rewrite (Split_app p c "/" P), (Split_without c "/" C). reflexivity. }
  rewrite (ImportState_two request response p c S).
  eexists. split; [reflexivity|]. repeat split.
Qed.

Lemma ImportState_round_trip_witness :
  exists data,
    ImportState {| ImportStateRequest.ID := "us-east-1_pool/client-1" |} emptyResponse
    = Returned {| State := Some data; Diagnostics := [] |}
    /\ ID data = types.StringValue "client-1"
    /\ UserPoolID data = types.StringValue "us-east-1_pool"
    /\ deleteInput data
       = {| DeleteUserPoolClientInput.ClientId := Some "client-1";
            DeleteUserPoolClientInput.UserPoolId := Some "us-east-1_pool" |}.
Proof.
  exact (ImportState_round_trip {| ImportStateRequest.ID := "us-east-1_pool/client-1" |}
           emptyResponse "us-east-1_pool" "client-1" eq_refl eq_refl eq_refl).
Defined.

(** X10. ImportState panics exactly on an id without a slash.  Whenever it
    returns it has set [id] and [user_pool_id] to the second and the first
    segment of the id, also when it reports the id as malformed: it keeps
    the diagnostics as they were for an id with one slash and reports an
    error for every other id. *)
Theorem ImportState_outcomes (request : ImportStateRequest.t) (response : Response) :
  ((exists msg, ImportState request response = Panic msg)
   <-> strings.Count (ImportStateRequest.ID request) "/" = 0)
  /\ (forall r, ImportState request response = Returned r ->
        (exists data userPoolId clientId rest,
           State r = Some data
           /\ strings.Split (ImportStateRequest.ID request) "/"
              = userPoolId :: clientId :: rest
           /\ ID data = types.StringValue clientId
           /\ UserPoolID data = types.StringValue userPoolId)
        /\ (strings.Count (ImportStateRequest.ID request) "/" = 1 ->
            Diagnostics r = Diagnostics response)
        /\ (strings.Count (ImportStateRequest.ID request) "/" <> 1 ->
            diag.HasError (Diagnostics r) = true)).
Proof.
  pose proof (Split_length (ImportStateRequest.ID request) "/") as L.
  unfold ImportState.
  destruct (strings.Split (ImportStateRequest.ID request) "/") as [|a [|b l]];
    simpl in L; [discriminate L | |].
  - split.
    + split; [intros _; lia | intros _; eexists; reflexivity].
    + intros r H. discriminate H.
  - split.
    + split; [intros [msg H]; discriminate H | intros C; lia].
    + intros r H. cbn [index nth_error] in H. injection H as <-.
      cbn [State_SetAttribute_user_pool_id State_SetAttribute_id State Diagnostics
           stateOrNull UserPoolID ID].
      rewrite !Append_nil. split; [|split].
      * eexists. exists a, b, l. split; [reflexivity|]. repeat split.
      * intros C. destruct l as [|c l]; [reflexivity | simpl in L; lia].
      * intros C. destruct l as [|c l]; [simpl in L; lia|].
        cbn [length Nat.eqb negb AddError Diagnostics]. apply HasError_AddError.
Qed.

Lemma StringToFrameworkARN_keeps_errors (v : option string) (diags : diag.Diagnostics) :
  diag.HasError diags = true ->
  diag.HasError (snd (flex.StringToFrameworkARN v diags)) = true.
Proof.
  intros H. destruct v as [s|]; simpl; [|exact H].
  destruct (arn.Parse s); simpl; [exact H | apply HasError_AddError].
Qed.

Lemma StringToFrameworkARN_parses (v : option string) (diags : diag.Diagnostics) :
  parses v = true ->
  snd (flex.StringToFrameworkARN v diags) = diags
  /\ flex.ARNStringFromFramework (fst (flex.StringToFrameworkARN v diags)) = v.
Proof.
  unfold parses, flex.StringToFrameworkARN. destruct v as [s|]; [|split; reflexivity].
  destruct (arn.Parse s) as [a|] eqn:P; [|discriminate]. intros _.
  split; [reflexivity|]. simpl. rewrite (arn_String_Parse s a P). reflexivity.
Qed.

Lemma StringToFrameworkARN_fails (v : option string) (diags : diag.Diagnostics) :
  parses v = false -> diag.HasError (snd (flex.StringToFrameworkARN v diags)) = true.
Proof.
  unfold parses, flex.StringToFrameworkARN. destruct v as [s|]; [|discriminate].
  destruct (arn.Parse s); [discriminate|]. intros _. apply HasError_AddError.
Qed.

(** X11. An analytics block whose two ARNs are nil or well formed survives
    the round trip: flattened into diagnostics without error it adds no
    diagnostic, and the list of one element that results is expanded back
    into the block, a block with every field nil included.  An ARN that is
    not well formed is reported as an error, after which the expansion
    yields nil. *)
Theorem flatten_expand_analytics_configuration
    (ac : AnalyticsConfigurationType.t) (diags : diag.Diagnostics) :
  diag.HasError diags = false ->
  (parses (AnalyticsConfigurationType.ApplicationArn ac) = true ->
   parses (AnalyticsConfigurationType.RoleArn ac) = true ->
   snd (flattenAnaylticsConfiguration (Some ac) diags) = diags
   /\ (exists e, fst (flattenAnaylticsConfiguration (Some ac) diags) = types.ListValue [e])
   /\ expandAnaylticsConfiguration (fst (flattenAnaylticsConfiguration (Some ac) diags)) diags
      = (Some ac, diags))
  /\ (parses (AnalyticsConfigurationType.ApplicationArn ac) = false
      \/ parses (AnalyticsConfigurationType.RoleArn ac) = false ->
      diag.HasError (snd (flattenAnaylticsConfiguration (Some ac) diags)) = true
      /\ fst (expandAnaylticsConfiguration
                (fst (flattenAnaylticsConfiguration (Some ac) diags))
                (snd (flattenAnaylticsConfiguration (Some ac) diags))) = None).
Proof.
  intros H. destruct ac as [a i e r u].
  unfold flattenAnaylticsConfiguration.
  cbn [AnalyticsConfigurationType.ApplicationArn AnalyticsConfigurationType.ApplicationId
       AnalyticsConfigurationType.ExternalId AnalyticsConfigurationType.RoleArn
       AnalyticsConfigurationType.UserDataShared].
  split.
  - intros Pa Pr.
    destruct (StringToFrameworkARN_parses a diags Pa) as [Da Ea].
    destruct (flex.StringToFrameworkARN a diags) as [a' d1]. cbn [fst snd] in Da, Ea.
    subst d1.
    destruct (StringToFrameworkARN_parses r diags Pr) as [Dr Er].
    destruct (flex.StringToFrameworkARN r diags) as [r' d2]. cbn [fst snd] in Dr, Er.
    subst d2. cbn [fst snd].
    split; [reflexivity | split; [eexists; reflexivity|]].
    unfold expandAnaylticsConfiguration. cbn [types.ElementsAs]. rewrite Append_nil, H.
    unfold analyticsConfiguration_expand.
    cbn [ApplicationARN ApplicationID ExternalID RoleARN UserDataShared].
    rewrite Ea, Er, !StringFromFramework_StringToFramework.
    destruct u; reflexivity.
  - intros F.
    assert (K : diag.HasError
                  (snd (flex.StringToFrameworkARN r
                          (snd (flex.StringToFrameworkARN a diags)))) = true).
    { destruct F as [F | F].
      - apply StringToFrameworkARN_keeps_errors, StringToFrameworkARN_fails, F.
      - apply StringToFrameworkARN_fails, F. }
    destruct (flex.StringToFrameworkARN a diags) as [a' d1]. cbn [snd] in K.
    destruct (flex.StringToFrameworkARN r d1) as [r' d2]. cbn [fst snd] in *.
    split; [exact K | apply (proj1 (expand_after_error d2 K))].
Qed.

Lemma flatten_expand_analytics_configuration_witness :
  snd (flattenAnaylticsConfiguration (Some sampleAnalytics) [sampleWarning]) = [sampleWarning]
  /\ (exists e, fst (flattenAnaylticsConfiguration (Some sampleAnalytics) [sampleWarning])
                = types.ListValue [e])
  /\ expandAnaylticsConfiguration
       (fst (flattenAnaylticsConfiguration (Some sampleAnalytics) [sampleWarning]))
       [sampleWarning]
     = (Some sampleAnalytics, [sampleWarning]).
Proof.
  exact (proj1 (flatten_expand_analytics_configuration sampleAnalytics [sampleWarning]
                  eq_refl) eq_refl eq_refl).
Defined.


(** X12. The state that [update] writes names the client that the service
    returned: the ids that Read looks up, that the input of the remote
    update carries and that the input of the remote deletion carries are
    the client id and the user pool id of the response, whatever the
    diagnostics. *)
Theorem update_names_same_client
    (data : resourceUserPoolClientData) (inp : UPC.t) (diags diags' : diag.Diagnostics) :
  let state := fst (update data inp diags) in
  deleteInput state
  = {| DeleteUserPoolClientInput.ClientId := UPC.ClientId inp;
       DeleteUserPoolClientInput.UserPoolId := UPC.UserPoolId inp |}
  /\ UpdateUserPoolClientInput.ClientId (fst (updateInput state diags')) = UPC.ClientId inp
  /\ UpdateUserPoolClientInput.UserPoolId (fst (updateInput state diags'))
     = UPC.UserPoolId inp
  /\ ValueString (ID state) = aws.StringValue (UPC.ClientId inp)
  /\ ValueString (UserPoolID state) = aws.StringValue (UPC.UserPoolId inp).
Proof.
  intros state. destruct (update_mirrors data inp diags) as [M _]. fold state in M.
  destruct M as (_ & _ & _ & _ & _ & _ & _ & _ & _ & _ & _ & _ & Ei & _ & _ & _ & _ & _
                 & _ & _ & _ & Ep & _).
  unfold deleteInput, updateInput.
  destruct (expandAnaylticsConfiguration _ diags') as [analytics d1].
  destruct (expandTokenValidityUnits _ d1) as [units d2].
  cbn [fst UpdateUserPoolClientInput.ClientId UpdateUserPoolClientInput.UserPoolId].
  rewrite Ei, Ep, !StringFromFramework_StringToFramework.
  repeat split; [destruct (UPC.ClientId inp) | destruct (UPC.UserPoolId inp)]; reflexivity.
Qed.

(** One step down the early returns of an operation. *)
Ltac branch :=
  match goal with
  | |- context [if diag.HasError ?d then _ else _] => destruct (diag.HasError d) eqn:?
  end.

(** X13. An operation that reports an error leaves the state as it was:
    Create, Read and Update set or remove the state only on the paths on
    which the diagnostics hold no error, and Delete never touches it. *)
Theorem error_keeps_state :
  (forall (conn : CognitoIdentityProvider) (request : CreateRequest.t) (response : Response),
     diag.HasError (Diagnostics (Create conn request response)) = true ->
     State (Create conn request response) = State response)
  /\ (forall (conn : CognitoIdentityProvider) (request : ReadRequest.t)
             (response : Response),
        diag.HasError (Diagnostics (Read conn request response)) = true ->
        State (Read conn request response) = State response)
  /\ (forall (conn : CognitoIdentityProvider) (request : UpdateRequest.t)
             (response : Response),
        diag.HasError (Diagnostics (fst (Update conn request response))) = true ->
        State (fst (Update conn request response)) = State response)
  /\ (forall (conn : CognitoIdentityProvider) (request : DeleteRequest.t)
             (response : Response),
        State (Delete conn request response) = State response).
Proof.
  split; [|split; [|split]].
  - intros conn request response. unfold Create.
    branch; cbv iota; [intros _; reflexivity|].
    branch; cbv iota; [intros _; reflexivity|].
    destruct (createInput _ _) as [params diags].
    branch; cbv iota; [intros _; reflexivity|].
    destruct (CreateUserPoolClientWithContext conn params) as [resp|err];
      [|intros _; reflexivity].
    destruct (update _ _ _) as [config diags'].
    branch; cbv iota; [intros _; reflexivity|].
    cbn [State_Set setDiagnostics Diagnostics diag.Append] in *. congruence.
  - intros conn request response. unfold Read.
    branch; cbv iota; [intros _; reflexivity|].
    destruct (FindCognitoUserPoolClientByID _ _ _) as [poolClient|err].
    + destruct (update _ _ _) as [state diags'].
      branch; cbv iota; [intros _; reflexivity|].
      cbn [State_Set setDiagnostics Diagnostics diag.Append] in *. congruence.
    + destruct (tfresource.NotFound _); [|intros _; reflexivity].
      cbn [State_RemoveResource Diagnostics] in *. congruence.
  - intros conn request response. unfold Update.
    branch; cbv iota; [intros _; reflexivity|].
    branch; cbv iota; [intros _; reflexivity|].
    destruct (updateInput _ _) as [params diags].
    branch; cbv iota; [intros _; reflexivity|].
    destruct (tfresource.RetryWhenAWSErrCodeEquals _ _ _) as [[output|err] calls];
      [|intros _; reflexivity].
    destruct (update _ _ _) as [config diags'].
    branch; cbv iota; [intros _; reflexivity|].
    cbn [fst State_Set setDiagnostics Diagnostics diag.Append] in *. congruence.
  - intros conn request response. unfold Delete.
    branch; cbv iota; [reflexivity|].
    destruct (tfawserr.ErrCodeEquals _ _); [reflexivity|].
    destruct (DeleteUserPoolClientWithContext conn _); reflexivity.
Qed.


(** *** Requests that are not sent *)

Lemma expandAnaylticsConfiguration_snd (l : types.List analyticsConfiguration)
    (diags : diag.Diagnostics) :
  snd (expandAnaylticsConfiguration l diags) = diag.Append diags (snd (types.ElementsAs l)).
Proof.
  unfold expandAnaylticsConfiguration. destruct (types.ElementsAs l) as [x ds].
  destruct (diag.HasError _); [reflexivity|]. destruct x as [|ac [|ac' x]]; reflexivity.
Qed.

Lemma expandTokenValidityUnits_snd (l : types.List tokenValidityUnits)
    (diags : diag.Diagnostics) :
  snd (expandTokenValidityUnits l diags) = diag.Append diags (snd (types.ElementsAs l)).
Proof.
  unfold expandTokenValidityUnits. destruct (types.ElementsAs l) as [x ds].
  destruct (diag.HasError _); [reflexivity|]. destruct x as [|tvu [|tvu' x]]; reflexivity.
Qed.

Lemma expand_HasError (data : resourceUserPoolClientData) (diags : diag.Diagnostics) :
  diag.HasError
    (snd (expandTokenValidityUnits (TokenValidityUnits data)
            (snd (expandAnaylticsConfiguration (AnalyticsConfiguration data) diags))))
  = diag.HasError diags || unknownBlock data.
Proof.
  rewrite expandTokenValidityUnits_snd, expandAnaylticsConfiguration_snd.
  rewrite !HasError_Append. unfold unknownBlock.
  destruct (AnalyticsConfiguration data), (TokenValidityUnits data);
    cbn [types.ElementsAs snd]; destruct (diag.HasError diags); reflexivity.
Qed.

Lemma createInput_HasError (data : resourceUserPoolClientData) (diags : diag.Diagnostics) :
  diag.HasError (snd (createInput data diags)) = diag.HasError diags || unknownBlock data.
Proof.
  rewrite <- expand_HasError. unfold createInput.
  destruct (expandAnaylticsConfiguration _ diags) as [analytics d1]. cbn [snd].
  destruct (expandTokenValidityUnits _ d1) as [units d2]. reflexivity.
Qed.

Lemma updateInput_HasError (data : resourceUserPoolClientData) (diags : diag.Diagnostics) :
  diag.HasError (snd (updateInput data diags)) = diag.HasError diags || unknownBlock data.
Proof.
  rewrite <- expand_HasError. unfold updateInput.
  destruct (expandAnaylticsConfiguration _ diags) as [analytics d1]. cbn [snd].
  destruct (expandTokenValidityUnits _ d1) as [units d2]. reflexivity.
Qed.

(** The helper has called at least once more when it returns. *)
Lemma retryLoop_calls {A : Type} (timeout : time.Duration)
    (f : nat -> (A + error) * positive) (c : string) (n : nat) (t : Z) :
  n < snd (tfresource.retryLoop timeout f c n t).
Proof.
  remember (Z.to_nat (timeout - t)) as fuel eqn:Q.
  revert n t Q. induction fuel as [fuel IH] using lt_wf_ind. intros n t Q.
  rewrite retryLoop_unfold.
  destruct (f n) as [[o|e] d] eqn:F; [simpl; lia|].
  destruct (tfawserr.ErrCodeEquals _ _ && _) eqn:B; [|simpl; lia].
  apply andb_prop in B as [_ B]. apply Z.ltb_lt in B.
  pose proof (IH (Z.to_nat (timeout - (t + Z.pos d))) ltac:(subst fuel; lia)
                 (S n) (t + Z.pos d)%Z eq_refl) as L.
  lia.
Qed.

Lemma HasError_afterGet (response : Response) (config plan : source) :
  diag.HasError (afterGet response config plan)
  = diag.HasError (diag.Append (Diagnostics response) (getDiags config))
    || diag.HasError (getDiags plan).
Proof. unfold afterGet. apply HasError_Append. Qed.

(** X14. Update calls the remote update at all exactly when the
    configuration and the plan are read without error and neither nested
    block of the plan is unknown.  Otherwise it makes no call, reports an
    error and leaves the state as it was; Create, in that case, gives the
    same response whatever the service would answer. *)
Theorem no_call_after_error :
  (forall (conn : CognitoIdentityProvider) (request : UpdateRequest.t) (response : Response),
     let unread :=
       diag.HasError (afterGet response (UpdateRequest.Config request)
                        (UpdateRequest.Plan request))
       || unknownBlock (target (UpdateRequest.Plan request)) in
     (snd (Update conn request response) = 0 <-> unread = true)
     /\ (unread = true ->
         diag.HasError (Diagnostics (fst (Update conn request response))) = true
         /\ State (fst (Update conn request response)) = State response))
  /\ (forall (conn conn' : CognitoIdentityProvider) (request : CreateRequest.t)
             (response : Response),
        diag.HasError (afterGet response (CreateRequest.Config request)
                         (CreateRequest.Plan request))
        || unknownBlock (target (CreateRequest.Plan request)) = true ->
        Create conn request response = Create conn' request response
        /\ diag.HasError (Diagnostics (Create conn request response)) = true
        /\ State (Create conn request response) = State response).
Proof.
  split.
  - intros conn request response unread. subst unread.
    rewrite HasError_afterGet. unfold Update.
    cbn [appendDiagnostics setDiagnostics Diagnostics State].
    destruct (diag.HasError (diag.Append (Diagnostics response) _)) eqn:E0.
    { cbn [fst snd orb Diagnostics State]. repeat split; try reflexivity. exact E0. }
    fold (afterGet response (UpdateRequest.Config request) (UpdateRequest.Plan request)).
    pose proof (HasError_afterGet response (UpdateRequest.Config request)
                  (UpdateRequest.Plan request)) as A. rewrite E0 in A. cbn [orb] in A.
    rewrite <- A.
    destruct (diag.HasError (afterGet _ _ _)) eqn:E1.
    { cbn [fst snd orb Diagnostics State]. repeat split; try reflexivity. exact E1. }
    pose proof (updateInput_HasError (target (UpdateRequest.Plan request))
                  (afterGet response (UpdateRequest.Config request)
                     (UpdateRequest.Plan request))) as U.
    rewrite E1 in U. cbn [orb] in *.
    destruct (updateInput _ _) as [params diags]. cbn [snd Diagnostics] in *.
    rewrite U.
    destruct (unknownBlock _).
    { cbn [fst snd Diagnostics State]. repeat split; try reflexivity. exact U. }
    unfold tfresource.RetryWhenAWSErrCodeEquals.
    match goal with
    | |- context [tfresource.retryLoop ?t ?f ?c 0 0%Z] =>
        pose proof (retryLoop_calls t f c 0 0%Z) as L;
        destruct (tfresource.retryLoop t f c 0 0%Z) as [[output|err] calls]
    end; cbn [snd] in L.
    + destruct (update _ _ _) as [config diags'].
      destruct (diag.HasError diags'); cbn [fst snd];
        (split; [split; [lia | discriminate] | discriminate]).
    + cbn [fst snd]. split; [split; [lia | discriminate] | discriminate].
  - intros conn conn' request response. rewrite HasError_afterGet. unfold Create.
    cbn [appendDiagnostics setDiagnostics Diagnostics State].
    destruct (diag.HasError (diag.Append (Diagnostics response) _)) eqn:E0.
    { intros _. cbn [Diagnostics State]. repeat split. exact E0. }
    fold (afterGet response (CreateRequest.Config request) (CreateRequest.Plan request)).
    pose proof (HasError_afterGet response (CreateRequest.Config request)
                  (CreateRequest.Plan request)) as A. rewrite E0 in A. cbn [orb] in A.
    rewrite <- A.
    destruct (diag.HasError (afterGet _ _ _)) eqn:E1.
    { intros _. cbn [Diagnostics State]. repeat split. exact E1. }
    pose proof (createInput_HasError (target (CreateRequest.Plan request))
                  (afterGet response (CreateRequest.Config request)
                     (CreateRequest.Plan request))) as U.
    rewrite E1 in U. cbn [orb] in *.
    destruct (createInput _ _) as [params diags]. cbn [snd Diagnostics] in *.
    intros K. rewrite K in U. rewrite U. cbn [Diagnostics State].
    repeat split. exact U.
Qed.

Lemma no_call_after_error_witness :
  diag.HasError
    (Diagnostics
       (fst (Update sampleCognito
               {| UpdateRequest.Config := sampleSource sampleConfig;
                  UpdateRequest.Plan :=
                    {| target := sampleConfig;
                       getDiags := [diag.NewErrorDiagnostic "Value Conversion Error"
                                      "plan"] |};
                  UpdateRequest.State := sampleSource sampleConfig |} emptyResponse)))
  = true
  /\ State (fst (Update sampleCognito
                   {| UpdateRequest.Config := sampleSource sampleConfig;
                      UpdateRequest.Plan :=
                        {| target := sampleConfig;
                           getDiags := [diag.NewErrorDiagnostic "Value Conversion Error"
                                          "plan"] |};
                      UpdateRequest.State := sampleSource sampleConfig |} emptyResponse))
     = None.
Proof.
  exact (proj2 (proj1 no_call_after_error sampleCognito
                  {| UpdateRequest.Config := sampleSource sampleConfig;
                     UpdateRequest.Plan :=
                       {| target := sampleConfig;
                          getDiags := [diag.NewErrorDiagnostic "Value Conversion Error"
                                         "plan"] |};
                     UpdateRequest.State := sampleSource sampleConfig |} emptyResponse)
           eq_refl).
Defined.


(** *** Failures of the service *)

(** X15. When the request is read and expanded without error and the
    remote create fails, Create leaves the state as it was and reports one
    more error, whose summary bears the name of the plan and whose detail
    is the text of the failure. *)
Theorem Create_reports_remote_failure
    (conn : CognitoIdentityProvider) (request : CreateRequest.t) (response : Response)
    (params : CreateUserPoolClientInput.t) (diags : diag.Diagnostics) (err : error) :
  diag.HasError
    (afterGet response (CreateRequest.Config request) (CreateRequest.Plan request)) = false ->
  createInput (target (CreateRequest.Plan request))
    (afterGet response (CreateRequest.Config request) (CreateRequest.Plan request))
  = (params, diags) ->
  diag.HasError diags = false ->
  CreateUserPoolClientWithContext conn params = inr err ->
  Create conn request response
  = {| State := State response;
       Diagnostics :=
         diag.AddError diags
           (fmt.Sprintf "creating Cognito User Pool Client (%s)"
              [ValueString (Name (target (CreateRequest.Plan request)))])
           (Error err) |}
  /\ In (diag.NewErrorDiagnostic
           (fmt.Sprintf "creating Cognito User Pool Client (%s)"
              [ValueString (Name (target (CreateRequest.Plan request)))])
           (Error err))
        (Diagnostics (Create conn request response)).
Proof.
  intros H0 HI H1 C.
  rewrite (Create_run conn request response params diags H0 HI H1), C.
  split; [reflexivity | apply In_AddError].
Qed.

Lemma Create_reports_remote_failure_witness :
  State (Create (failingCognito throttled)
           {| CreateRequest.Config := sampleSource sampleConfig;
              CreateRequest.Plan := sampleSource sampleConfig |} emptyResponse) = None
  /\ In (diag.NewErrorDiagnostic "creating Cognito User Pool Client (app)"
           "ThrottlingException: Rate exceeded")
        (Diagnostics (Create (failingCognito throttled)
                        {| CreateRequest.Config := sampleSource sampleConfig;
                           CreateRequest.Plan := sampleSource sampleConfig |}
                        emptyResponse)).
Proof.
  destruct (Create_reports_remote_failure (failingCognito throttled)
              {| CreateRequest.Config := sampleSource sampleConfig;
                 CreateRequest.Plan := sampleSource sampleConfig |} emptyResponse
              _ _ throttled eq_refl eq_refl eq_refl eq_refl) as [E I].
  split; [rewrite E; reflexivity | exact I].
Defined.

(** X16. When the state is read without error and describing the client
    fails with an error that is neither the code ResourceNotFoundException
    nor a not-found error, Read keeps the resource in the state and
    reports the failure as an error that names the id of the state. *)
Theorem Read_reports_other_failure
    (conn : CognitoIdentityProvider) (request : ReadRequest.t) (response : Response)
    (err : error) :
  let state := target (ReadRequest.State request) in
  diag.HasError (Diagnostics response) = false ->
  diag.HasError (getDiags (ReadRequest.State request)) = false ->
  DescribeUserPoolClientWithContext conn
    {| DescribeUserPoolClientInput.ClientId := aws.String (ValueString (ID state));
       DescribeUserPoolClientInput.UserPoolId := aws.String (ValueString (UserPoolID state)) |}
  = inr err ->
  tfawserr.ErrCodeEquals (Some err) ErrCodeResourceNotFoundException = false ->
  tfresource.isNotFound err = false ->
  State (Read conn request response) = State response
  /\ diag.HasError (Diagnostics (Read conn request response)) = true
  /\ In (DiagErrorFramework "reading" ResNameUserPoolClient (ValueString (ID state)) err)
        (Diagnostics (Read conn request response)).
Proof.
  intros state H0 H1 D C N. unfold Read. fold state.
  cbn [appendDiagnostics Diagnostics]. rewrite HasError_Append, H0, H1. cbn [orb].
  unfold FindCognitoUserPoolClientByID. rewrite D, C. cbn [tfresource.NotFound].
  rewrite N. cbn [appendDiagnostics State Diagnostics].
  split; [reflexivity | split].
  - rewrite HasError_Append. apply orb_true_r.
  - apply (In_AddError _
             (fmt.Sprintf "%s Cognito IDP %s (%s)"
                ["reading"; ResNameUserPoolClient; ValueString (ID state)])
             (Error err)).
Qed.

Lemma Read_reports_other_failure_witness :
  State (Read (failingCognito throttled) {| ReadRequest.State := sampleSource sampleConfig |}
           {| State := Some sampleConfig; Diagnostics := [] |}) = Some sampleConfig
  /\ diag.HasError
       (Diagnostics (Read (failingCognito throttled)
                       {| ReadRequest.State := sampleSource sampleConfig |}
                       {| State := Some sampleConfig; Diagnostics := [] |})) = true.
Proof.
  destruct (Read_reports_other_failure (failingCognito throttled)
              {| ReadRequest.State := sampleSource sampleConfig |}
              {| State := Some sampleConfig; Diagnostics := [] |} throttled
              eq_refl eq_refl eq_refl eq_refl eq_refl) as (S & E & _).
  split; [exact S | exact E].
Defined.

(** X17. The inputs of the remote create and of the remote update are
    built alike: for the same data and diagnostics the 21 fields they have
    in common are equal and so are the diagnostics on return.  Only the
    input of the create carries [generate_secret]; only the input of the
    update carries the client id. *)
Theorem createInput_updateInput_agree
    (data : resourceUserPoolClientData) (diags : diag.Diagnostics) :
  sameSettings (fst (createInput data diags)) (fst (updateInput data diags))
  /\ snd (createInput data diags) = snd (updateInput data diags)
  /\ CreateUserPoolClientInput.GenerateSecret (fst (createInput data diags))
     = flex.BoolFromFramework (GenerateSecret data)
  /\ UpdateUserPoolClientInput.ClientId (fst (updateInput data diags))
     = flex.StringFromFramework (ID data).
Proof.
  unfold createInput, updateInput, sameSettings.
  destruct (expandAnaylticsConfiguration _ diags) as [analytics d1].
  destruct (expandTokenValidityUnits _ d1) as [units d2].
  cbn. repeat split.
Qed.

End FurtherUserPoolClient.
